(** * Catalog search and index synchronisation (Tafakkur_test)

    A shallow embedding of the search/indexing core of the catalog
    backend: [catalog/serializers.py], [catalog/views.py],
    [catalog/models.py], [catalog/documents.py] and the management
    commands [populate_es] and [wait_for_db].

    Conventions.
    - Python [int] is [Z]; a [Decimal] with two decimal places is the
      integer number of hundredths; [str] is [string].
    - A Python call either returns or raises: [outcome].  Code that
      touches the relational store, the search engine or stdout runs in
      the monad [M], a state monad over [World] in which a raised
      exception keeps the state reached so far (Python does not undo
      side effects when an exception unwinds).
    - ['test' in sys.argv] is the boolean [test_mode].
    - Python's [float] and the engine's query execution are interfaces
      ([PyFloat], [SearchBackend]). *)

From Stdlib Require Import ZArith Ascii String List Lia.
From stdpp Require Import base option list gmap strings pretty.

Open Scope Z_scope.
Open Scope string_scope.

(** ** Python values and exceptions *)

(** [Decimal] quantised to two places (DecimalField(decimal_places=2)):
    the number of hundredths. *)
Definition Decimal : Type := Z.

(** Python's [float] type and the conversion [float(d)] of a Decimal. *)
Class PyFloat := {
  Float : Type;
  float : Decimal -> Float
}.

Inductive Exception :=
| ValidationError (field : string) (detail : string)
| ValueError (detail : string)
| ConnectionError
| NotFoundError (status : Z)
| RequestError (status : Z)
| BulkIndexError (doc_id : Z) (status : Z)
| DoesNotExist.

(** [str(e)], as the rebuild command prints it.  The wording of a
    library exception is not fixed by the repository; no property below
    depends on it. *)
Definition str_exception (e : Exception) : string :=
  match e with
  | ValidationError _ d => d
  | ValueError d => d
  | ConnectionError => "ConnectionError"
  | NotFoundError s => "NotFoundError(" +:+ pretty s +:+ ")"
  | RequestError s => "RequestError(" +:+ pretty s +:+ ")"
  | BulkIndexError i s =>
      "1 document(s) failed to index: " +:+ pretty i +:+ " status " +:+ pretty s
  | DoesNotExist => "DoesNotExist"
  end.

Inductive outcome (A : Type) :=
| Return (a : A)
| Raise (e : Exception).
Arguments Return {A} a.
Arguments Raise {A} e.

(** ** The relational store (catalog/models.py, lines 8-79) *)

Module Category.
Record t := {
  id : Z;
  name : string;
  description : string;
  image : option string
}.
End Category.

Module Product.
Record t := {
  id : Z;
  category : Z;
  name : string;
  price : Decimal;
  image : option string;
  description : string
}.
End Product.

(** The two tables, rows in storage order. *)
Record Database := {
  categories : list Category.t;
  products : list Product.t
}.

(** ** catalog/serializers.py *)

Module serializers.

(** Settings read by the serializer fields. *)
Record Settings := {
  PAGE_SIZE : Z;
  MAX_PAGE_SIZE : Z
}.

Definition SORT_CHOICES : list string :=
  ["relevance"; "price_asc"; "price_desc"].

(** [validated_data] of [SearchQuerySerializer]: [q], [sort], [page]
    and [page_size] have defaults and are always present; [category],
    [price_min] and [price_max] are present only when sent. *)
Record SearchQuery := {
  q : string;
  category : option (list Z);
  price_min : option Decimal;
  price_max : option Decimal;
  sort : string;
  page : Z;
  page_size : Z
}.

(** What the field declarations and [validate] guarantee. *)
Record valid (cfg : Settings) (d : SearchQuery) : Prop := {
  valid_sort : sort d ∈ SORT_CHOICES;
  valid_page : 1 <= page d;
  valid_page_size : 1 <= page_size d <= MAX_PAGE_SIZE cfg;
  valid_price_min : forall lo, price_min d = Some lo -> 0 <= lo;
  valid_price_max : forall hi, price_max d = Some hi -> 0 <= hi;
  valid_prices : forall lo hi,
    price_min d = Some lo -> price_max d = Some hi -> lo <= hi
}.

(** [SearchQuerySerializer.validate]. *)
Definition price_relation_error : Exception :=
  ValidationError "non_field_errors" "price_min must be <= price_max".

Definition validate (attrs : SearchQuery) : outcome SearchQuery :=
  match price_min attrs, price_max attrs with
  | Some lo, Some hi =>
      if bool_decide (lo > hi) then Raise price_relation_error
      else Return attrs
  | _, _ => Return attrs
  end.

(** Python string helpers used by [validate_category].  A [string] is
    read as a text whose characters have code points below 256; texts
    with other characters are outside the model. *)

(** [str.isspace] of one character: the blanks that [strip] removes. *)
Definition isspace (c : ascii) : bool :=
  let n := Z.of_nat (nat_of_ascii c) in
  bool_decide (9 <= n <= 13) || bool_decide (28 <= n <= 32)
  || bool_decide (n = 133) || bool_decide (n = 160).

Fixpoint lstrip (s : string) : string :=
  match s with
  | String c rest => if isspace c then lstrip rest else s
  | EmptyString => EmptyString
  end.

Fixpoint rstrip (s : string) : string :=
  match s with
  | EmptyString => EmptyString
  | String c rest =>
      match rstrip rest with
      | EmptyString => if isspace c then EmptyString else String c EmptyString
      | kept => String c kept
      end
  end.

Definition strip (s : string) : string := rstrip (lstrip s).

(** [value.split(",")]. *)
Fixpoint split_comma (s : string) : list string :=
  match s with
  | EmptyString => [EmptyString]
  | String c rest =>
      if Ascii.eqb c ","%char then EmptyString :: split_comma rest
      else match split_comma rest with
           | [] => [String c EmptyString]
           | x :: xs => String c x :: xs
           end
  end.

Definition digit_value (c : ascii) : option Z :=
  let n := Z.of_nat (nat_of_ascii c) in
  if bool_decide (48 <= n <= 57) then Some (n - 48) else None.

(** Decimal digits, single underscores allowed between digits. *)
Fixpoint int_digits (acc : Z) (after_digit : bool) (s : string) : option Z :=
  match s with
  | EmptyString => if after_digit then Some acc else None
  | String c rest =>
      match digit_value c with
      | Some d => int_digits (acc * 10 + d) true rest
      | None =>
          if Ascii.eqb c "_"%char && after_digit
          then int_digits acc false rest
          else None
      end
  end.

(** The default of [sys.int_max_str_digits]: a decimal literal with more
    digits is refused. *)
Definition int_max_str_digits : Z := 4300.

(** The digits of a literal; sign and underscores do not count. *)
Fixpoint count_digits (s : string) : Z :=
  match s with
  | EmptyString => 0
  | String c rest =>
      match digit_value c with
      | Some _ => 1 + count_digits rest
      | None => count_digits rest
      end
  end.

(** The leading run of digits and underscores of a literal. *)
Fixpoint leading_run (s : string) : string :=
  match s with
  | EmptyString => EmptyString
  | String c rest =>
      match digit_value c with
      | Some _ => String c (leading_run rest)
      | None =>
          if Ascii.eqb c "_"%char then String c (leading_run rest)
          else EmptyString
      end
  end.

(** The two ways in which [int] refuses a text.  Python's messages go on
    with the text itself; the validator catches every ValueError alike. *)
Definition invalid_literal : Exception :=
  ValueError "invalid literal for int() with base 10".

Definition digit_limit_exceeded : Exception :=
  ValueError "Exceeds the limit (4300 digits) for integer string conversion".

(** The conversion after the sign, in the order of the interpreter: the
    leading run of digits and underscores is scanned and its underscores
    are checked, then its digits are counted against the limit, then
    anything left after the run is refused. *)
Definition int_body (negative : bool) (body : string) : outcome Z :=
  let run := leading_run body in
  match int_digits 0 false run with
  | None => Raise invalid_literal
  | Some n =>
      if bool_decide (count_digits run > int_max_str_digits)
      then Raise digit_limit_exceeded
      else if bool_decide (run = body)
           then Return (if negative then - n else n)
           else Raise invalid_literal
  end.

(** [int(x)] on a stripped string. *)
Definition int (x : string) : outcome Z :=
  match x with
  | String "-"%char rest => int_body true rest
  | String "+"%char rest => int_body false rest
  | _ => int_body false x
  end.

(** The comprehension [[int(x.strip()) for x in parts if x.strip()]]. *)
Fixpoint ints_of_parts (parts : list string) : outcome (list Z) :=
  match parts with
  | [] => Return []
  | x :: rest =>
      if bool_decide (strip x ≠ EmptyString) then
        match int (strip x) with
        | Raise e => Raise e
        | Return n =>
            match ints_of_parts rest with
            | Return ns => Return (n :: ns)
            | Raise e => Raise e
            end
        end
      else ints_of_parts rest
  end.

(** [SearchQuerySerializer.validate_category]. *)
Definition validate_category (value : option string) : outcome (list Z) :=
  match value with
  | None => Return []
  | Some EmptyString => Return []
  | Some value =>
      match ints_of_parts (split_comma value) with
      | Return ids => Return ids
      | Raise (ValueError _) =>
          Raise (ValidationError "category"
                   "category must be a comma-separated list of integers")
      | Raise e => Raise e
      end
  end.

(** [CategorySerializer]: [instance] is the row being updated, if any. *)
Record CategorySerializer := {
  instance : option Category.t
}.

(** [Category.objects.filter(name=value)] and [.exists()]. *)
Definition Category_filter_name (db : Database) (value : string)
  : list Category.t :=
  filter (fun c => Category.name c = value) (categories db).

Definition exists_ {A} (rows : list A) : bool :=
  match rows with [] => false | _ :: _ => true end.

Definition duplicate_name_error : Exception :=
  ValidationError "name" "Категория с таким именем уже существует".

(** [CategorySerializer.validate_name]. *)
Definition validate_name (self : CategorySerializer) (db : Database)
    (value : string) : outcome string :=
  if exists_ (Category_filter_name db value)
  then Raise duplicate_name_error
  else Return value.

(** [Category.objects.filter(id=...)]. *)
Definition Category_filter_id (db : Database) (id : Z) : list Category.t :=
  filter (fun c => Category.id c = id) (categories db).

Definition missing_category_error : Exception :=
  ValidationError "category" "Указанная категория не существует".

(** [ProductSerializer.validate_category]. *)
Definition ProductSerializer_validate_category (db : Database)
    (value : Category.t) : outcome Category.t :=
  if negb (exists_ (Category_filter_id db (Category.id value)))
  then Raise missing_category_error
  else Return value.

Definition price_error : Exception :=
  ValidationError "price" "Цена должна быть положительной".

(** [ProductSerializer.validate_price]. *)
Definition validate_price (value : Decimal) : outcome Decimal :=
  if bool_decide (value <= 0) then Raise price_error else Return value.

End serializers.



(** ** catalog/documents.py and the engine client *)

Module documents.

(** The indexed projection of a [Product] with its category joined in
    ([ProductDocument]: fields id, name, description, category,
    category_id, image, price). *)
Record ProductDocument `{PyFloat} := {
  doc_id : Z;
  doc_name : string;
  doc_description : string;
  doc_category : Z * string;
  doc_category_id : Z;
  doc_image : option string;
  doc_price : Float
}.

(** Modelled from the spec: the search engine behind the client, an
    external collaborator (section 6).  As the client sees it: whether
    the cluster answers, the index products ([None] when the index does
    not exist), and the ids of the documents it refuses to index. *)
Record Elasticsearch `{PyFloat} := {
  reachable : bool;
  products_index : option (gmap Z ProductDocument);
  rejected : gset Z
}.

Inductive Style := PLAIN | SUCCESS | ERROR | WARNING.

(** Everything the write path can touch. *)
Record World `{PyFloat} := {
  db : Database;
  es : Elasticsearch;
  stdout : list (Style * string)
}.

Definition M `{PyFloat} (A : Type) : Type := World -> outcome A * World.

Definition ret `{PyFloat} {A} (a : A) : M A := fun w => (Return a, w).

Definition bind `{PyFloat} {A B} (m : M A) (k : A -> M B) : M B :=
  fun w =>
    match m w with
    | (Return a, w') => k a w'
    | (Raise e, w') => (Raise e, w')
    end.

(** [try: body except Exception as e: handler(e)]. *)
Definition try_except `{PyFloat} {A} (body : M A) (handler : Exception -> M A)
  : M A :=
  fun w =>
    match body w with
    | (Return a, w') => (Return a, w')
    | (Raise e, w') => handler e w'
    end.

Declare Scope py_scope.
Delimit Scope py_scope with py.
Notation "x <- m ;; k" := (bind m (fun x => k))
  (at level 100, m at next level, right associativity) : py_scope.
Notation "m ;; k" := (bind m (fun _ => k))
  (at level 100, right associativity) : py_scope.

(** [for x in xs: body(x)]. *)
Fixpoint for_each `{PyFloat} {X} (xs : list X) (body : X -> M unit) : M unit :=
  match xs with
  | [] => ret tt
  | x :: rest => (body x ;; for_each rest body)%py
  end.

Definition set_es `{PyFloat} (e : Elasticsearch) (w : World) : World :=
  {| db := db w; es := e; stdout := stdout w |}.

Definition set_index `{PyFloat} (ix : option (gmap Z ProductDocument))
    (e : Elasticsearch) : Elasticsearch :=
  {| reachable := reachable e; products_index := ix; rejected := rejected e |}.

(** [self.stdout.write(line)]. *)
Definition say `{PyFloat} (style : Style) (line : string) (w : World) : World :=
  {| db := db w; es := es w; stdout := stdout w ++ [(style, line)] |}.

Definition write `{PyFloat} (style : Style) (line : string) : M unit :=
  fun w => (Return tt, say style line w).

(** Modelled from the spec: index delete of the engine client, reached
    as [ProductDocument._index.delete(ignore=...)]; a missing index is an
    error unless 404 is ignored. *)
Definition Index_delete `{PyFloat} (ignore : list Z) : M unit :=
  fun w =>
    if reachable (es w) then
      match products_index (es w) with
      | Some _ => (Return tt, set_es (set_index None (es w)) w)
      | None =>
          if bool_decide (404 ∈ ignore) then (Return tt, w)
          else (Raise (NotFoundError 404), w)
      end
    else (Raise ConnectionError, w).

(** Modelled from the spec: index create of the engine client, reached
    as [ProductDocument._index.create()]. *)
Definition Index_create `{PyFloat} : M unit :=
  fun w =>
    if reachable (es w) then
      match products_index (es w) with
      | Some _ => (Raise (RequestError 400), w)
      | None => (Return tt, set_es (set_index (Some ∅) (es w)) w)
      end
    else (Raise ConnectionError, w).

(** Modelled from the spec: upsert-by-id and delete-by-id of the engine
    client, in the form the repository reaches them: one bulk action,
    and the item status the cluster answers with. *)
Inductive Action `{PyFloat} :=
| index_action (doc : ProductDocument)
| delete_action (id : Z).

Definition action_id `{PyFloat} (a : Action) : Z :=
  match a with
  | index_action doc => doc_id doc
  | delete_action id => id
  end.

Definition apply_action `{PyFloat} (a : Action) (e : Elasticsearch)
  : Z * Elasticsearch :=
  match a with
  | index_action doc =>
      if bool_decide (doc_id doc ∈ rejected e) then (400, e)
      else
        match products_index e with
        | None => (201, set_index (Some {[doc_id doc := doc]}) e)
        | Some ix =>
            (if bool_decide (is_Some (ix !! doc_id doc)) then 200 else 201,
             set_index (Some (<[doc_id doc := doc]> ix)) e)
        end
  | delete_action id =>
      match products_index e with
      | None => (404, e)
      | Some ix =>
          match ix !! id with
          | None => (404, e)
          | Some _ => (200, set_index (Some (delete id ix)) e)
          end
      end
  end.

(** Modelled from the spec: the bulk helper of the engine client with
    one action.  A transport failure is raised in any case; an item that
    the cluster answers with a status outside 2xx is raised as
    [BulkIndexError] only when [raise_on_error]. *)
Definition bulk `{PyFloat} (a : Action) (raise_on_error : bool) : M unit :=
  fun w =>
    if reachable (es w) then
      let '(status, e) := apply_action a (es w) in
      if bool_decide (200 <= status < 300) then (Return tt, set_es e w)
      else if raise_on_error
           then (Raise (BulkIndexError (action_id a) status), set_es e w)
           else (Return tt, set_es e w)
    else (Raise ConnectionError, w).

Definition no_file_error : Exception :=
  ValueError "The 'image' attribute has no file associated with it.".

(** Document preparation after the field declarations of
    [ProductDocument] (documents.py, lines 19-27 and 55-60).  The
    category is read through the foreign key; the database holds a row
    for the key of every product (models.py, lines 53-54), and a product
    whose key has no row is refused here with DoesNotExist.  The field
    [image] reads [image.url]; the image of a product is optional
    (models.py, lines 57-58) and the url of an image field without a
    file raises ValueError: a product without image cannot be
    prepared. *)
Definition prepare `{PyFloat} (d : Database) (thing : Product.t)
  : outcome ProductDocument :=
  match List.find (fun c => bool_decide (Category.id c = Product.category thing))
          (categories d) with
  | None => Raise DoesNotExist
  | Some c =>
      match Product.image thing with
      | None => Raise no_file_error
      | Some url =>
          Return {| doc_id := Product.id thing;
                    doc_name := Product.name thing;
                    doc_description := Product.description thing;
                    doc_category := (Category.id c, Category.name c);
                    doc_category_id := Category.id c;
                    doc_image := Some url;
                    doc_price := float (Product.price thing) |}
      end
  end.

(** The prepared document, if the preparation does not raise. *)
Definition prepared `{PyFloat} (d : Database) (thing : Product.t)
  : option ProductDocument :=
  match prepare d thing with
  | Return doc => Some doc
  | Raise _ => None
  end.

Inductive BulkOp := op_index | op_delete.

(** Modelled from the spec: the upsert path of the document class, the
    library method that [ProductDocument.update] hands over to: prepare
    the document for an index action, then send the action in bulk. *)
Definition Document_update `{PyFloat} (thing : Product.t) (action : BulkOp)
    (raise_on_error : bool) : M unit :=
  match action with
  | op_delete => bulk (delete_action (Product.id thing)) raise_on_error
  | op_index =>
      fun w =>
        match prepare (db w) thing with
        | Return doc => bulk (index_action doc) raise_on_error w
        | Raise e => (Raise e, w)
        end
  end.

(** [ProductDocument.update]: skipped when running tests. *)
Definition update `{PyFloat} (test_mode : bool) (thing : Product.t)
    (action : BulkOp) (raise_on_error : bool) : M unit :=
  if test_mode then ret tt
  else Document_update thing action raise_on_error.

(** Modelled from the spec: the registry through which the receivers
    reach the document class.  [ProductDocument] is the only document
    registered for [Product] and declares no related models; a delete is
    an update with the delete action. *)
Definition registry_update `{PyFloat} (test_mode : bool) (instance : Product.t)
    (action : BulkOp) (raise_on_error : bool) : M unit :=
  update test_mode instance action raise_on_error.

Definition registry_update_related `{PyFloat} (instance : Product.t) : M unit :=
  ret tt.

Definition registry_delete `{PyFloat} (test_mode : bool) (instance : Product.t)
    (raise_on_error : bool) : M unit :=
  registry_update test_mode instance op_delete raise_on_error.

(** The document stored under an id, if the index exists and has one. *)
Definition indexed `{PyFloat} (w : World) (id : Z) : option ProductDocument :=
  products_index (es w) ≫= (fun ix => ix !! id).

(** The index after the given documents were upserted one after another
    (the first upsert creates a missing index). *)
Definition upserted `{PyFloat} (docs : list ProductDocument)
    (ix : option (gmap Z ProductDocument)) : option (gmap Z ProductDocument) :=
  foldl (fun o doc => Some (<[doc_id doc := doc]> (default ∅ o))) ix docs.

(** A product the live cluster accepts: it can be prepared (its
    category row exists and it has an image) and its id is not refused. *)
Definition indexable `{PyFloat} (w : World) (thing : Product.t) : bool :=
  match prepared (db w) thing with
  | Some doc => bool_decide (doc_id doc ∉ rejected (es w))
  | None => false
  end.

(** [ProductDocument.delete]: skipped when running tests; otherwise the
    call goes to the library method, [super_delete]. *)
Definition ProductDocument_delete `{PyFloat} (test_mode : bool)
    (super_delete : ProductDocument -> M unit) (self : ProductDocument)
  : M unit :=
  if test_mode then ret tt else super_delete self.

End documents.

(** ** catalog/views.py *)

Module views.
Import serializers documents.

(** The elasticsearch_dsl [Search] object, as far as the view builds it. *)
Inductive Query :=
| match_all
| multi_match (query : string) (fields : list string).

Inductive Filter `{PyFloat} :=
| terms (field : string) (values : list Z)
| range (field : string) (gte lte : option Float).

Inductive Order := asc | desc.

Record Search `{PyFloat} := {
  query : Query;
  filters : list Filter;
  sort_spec : list (string * Order);
  window : option (Z * Z)
}.

Definition ProductDocument_search `{PyFloat} : Search :=
  {| query := match_all; filters := []; sort_spec := []; window := None |}.

Definition set_query `{PyFloat} (qr : Query) (s : Search) : Search :=
  {| query := qr; filters := filters s;
     sort_spec := sort_spec s; window := window s |}.

Definition add_filter `{PyFloat} (f : Filter) (s : Search) : Search :=
  {| query := query s; filters := filters s ++ [f];
     sort_spec := sort_spec s; window := window s |}.

(** [Search.sort(key)]: a leading minus sign asks for descending order. *)
Definition sort_key (key : string) : string * Order :=
  match key with
  | String "-"%char field => (field, desc)
  | _ => (key, asc)
  end.

Definition set_sort `{PyFloat} (key : string) (s : Search) : Search :=
  {| query := query s; filters := filters s;
     sort_spec := [sort_key key]; window := window s |}.

(** [s[start:end]]. *)
Definition slice `{PyFloat} (start stop : Z) (s : Search) : Search :=
  {| query := query s; filters := filters s;
     sort_spec := sort_spec s; window := Some (start, stop) |}.

(** A raw hit, an instance of the document class.  [None] in
    [hit_description] and [hit_image] means that _source has no such key;
    [None] in [meta_score] means that [hit.meta] has no score attribute,
    and a present score may still be null. *)
Record Hit `{PyFloat} := {
  meta_id : string;
  meta_score : option (option Float);
  hit_category_id : Z;
  hit_category_name : string;
  hit_name : string;
  hit_price : Float;
  hit_description : option string;
  hit_image : option string
}.

(** [results.hits.total]: a plain integer, or an object with [value]. *)
Inductive HitsTotal :=
| total_scalar (n : Z)
| total_object (value : Z) (relation : string).

Record Results `{PyFloat} := {
  hits_total : HitsTotal;
  hits : list Hit
}.

(** Modelled from the spec: structured query execution of the engine
    client (section 6), [s.execute()]. *)
Class SearchBackend `{PyFloat} := {
  execute : Search -> outcome Results
}.

(** One result of the response; [None] is JSON null. *)
Record Item `{PyFloat} := {
  item_id : string;
  item_category : Z;
  item_category_name : string;
  item_name : string;
  item_price : Float;
  item_description : option string;
  item_image : option string;
  item_score : option Float
}.

(** [getattr(obj, name, default)]; [attr] is [None] when the attribute
    lookup raises AttributeError. *)
Definition getattr {A} (attr : option A) (default : A) : A :=
  match attr with
  | Some value => value
  | None => default
  end.

(** Reading a text field that the document class declares
    ([description], [image]) from a hit: the lookup gives the stored
    text, or the empty value of the field, null, when _source has no
    such key; it does not raise AttributeError. *)
Definition declared_text (stored : option string) : option (option string) :=
  Some stored.

Record Payload `{PyFloat} := {
  count : Z;
  resp_page : Z;
  resp_page_size : Z;
  has_next : bool;
  has_prev : bool;
  results : list Item
}.

Section get.
Context `{SearchBackend}.

(** Lines 146-193 of [ProductSearchView.get]: build the query. *)
Definition build_search (data : SearchQuery) : Search :=
  let q := q data in
  let categories := default [] (category data) in
  let price_min := price_min data in
  let price_max := price_max data in
  let sort := sort data in
  let page := page data in
  let page_size := page_size data in
  let s := ProductDocument_search in
  let s :=
    if bool_decide (q ≠ EmptyString)
    then set_query (multi_match q ["name^3"; "description"]) s
    else set_query match_all s in
  let s :=
    match categories with
    | [] => s
    | _ :: _ => add_filter (terms "category_id" categories) s
    end in
  let s :=
    if bool_decide (price_min ≠ None) || bool_decide (price_max ≠ None)
    then add_filter (range "price" (float <$> price_min)
                                   (float <$> price_max)) s
    else s in
  let s :=
    if bool_decide (sort = "price_asc") then set_sort "price" s
    else if bool_decide (sort = "price_desc") then set_sort "-price" s
    else if bool_decide (q = EmptyString) then set_sort "id" s
    else s in
  let start := (page - 1) * page_size in
  let stop := start + page_size in
  slice start stop s.

(** Line 197: the total count, scalar or structured. *)
Definition total_of (t : HitsTotal) : Z :=
  match t with
  | total_object value _ => value
  | total_scalar n => n
  end.

(** Lines 201-213: one result item per hit. *)
Definition project_hit (hit : Hit) : Item :=
  {| item_id := meta_id hit;
     item_category := hit_category_id hit;
     item_category_name := hit_category_name hit;
     item_name := hit_name hit;
     item_price := hit_price hit;
     item_description :=
       getattr (declared_text (hit_description hit)) (Some EmptyString);
     item_image := getattr (declared_text (hit_image hit)) (Some EmptyString);
     item_score := getattr (meta_score hit) None |}.

(** [ProductSearchView.get] on validated data. *)
Definition get (test_mode : bool) (data : SearchQuery) : outcome Payload :=
  if test_mode then
    let page := page data in
    let page_size := page_size data in
    Return {| count := 0;
              resp_page := page;
              resp_page_size := page_size;
              has_next := false;
              has_prev := bool_decide (page > 1);
              results := [] |}
  else
    let page := page data in
    let page_size := page_size data in
    let s := build_search data in
    let start := (page - 1) * page_size in
    let stop := start + page_size in
    match execute s with
    | Raise e => Raise e
    | Return res =>
        let total := total_of (hits_total res) in
        let items := map project_hit (hits res) in
        Return {| count := total;
                  resp_page := page;
                  resp_page_size := page_size;
                  has_next := bool_decide (stop < total);
                  has_prev := bool_decide (start > 0);
                  results := items |}
    end.

End get.

(** The zero-based start of the requested page (line 191). *)
Definition window_start (data : SearchQuery) : Z :=
  (page data - 1) * page_size data.

(** How the engine orders hits: by the sort clause when the request has
    one, by relevance score otherwise. *)
Inductive Ranking :=
| by_relevance
| by_field (field : string) (order : Order).

Definition ranking `{PyFloat} (s : Search) : Ranking :=
  match sort_spec s with
  | [] => by_relevance
  | (field, order) :: _ => by_field field order
  end.

(** The range filters of a request, as (field, gte, lte). *)
Definition range_filters `{PyFloat} (s : Search)
  : list (string * option Float * option Float) :=
  omap (fun f => match f with
                 | range field gte lte => Some (field, gte, lte)
                 | terms _ _ => None
                 end) (filters s).

(** Engine semantics of a [terms] filter: the document's field equals one
    of the listed values. *)
Definition int_field `{PyFloat} (field : string) (doc : ProductDocument)
  : option Z :=
  if bool_decide (field = "category_id") then Some (doc_category_id doc)
  else if bool_decide (field = "id") then Some (doc_id doc)
  else None.

Definition terms_matches `{PyFloat} (field : string) (values : list Z)
    (doc : ProductDocument) : bool :=
  match int_field field doc with
  | Some v => bool_decide (v ∈ values)
  | None => false
  end.

(** The documents that pass every [terms] filter of a request. *)
Definition terms_restriction `{PyFloat} (s : Search) (doc : ProductDocument)
  : bool :=
  forallb (fun f => match f with
                    | terms field values => terms_matches field values doc
                    | range _ _ _ => true
                    end) (filters s).

End views.

(** ** catalog/models.py: signal receivers *)

Module models.
Import documents.
Open Scope py_scope.

(** [index_product] (post_save of Product). *)
Definition index_product `{PyFloat} (test_mode : bool) (instance : Product.t)
  : M unit :=
  registry_update test_mode instance op_index true ;;
  registry_update_related instance.

(** [delete_product] (post_delete of Product). *)
Definition delete_product `{PyFloat} (test_mode : bool) (instance : Product.t)
  : M unit :=
  registry_delete test_mode instance false.

(** [instance.products.all()]: the rows whose foreign key is [instance]. *)
Definition products_all `{PyFloat} (instance : Category.t) : M (list Product.t) :=
  fun w =>
    (Return (filter (fun p => Product.category p = Category.id instance)
               (products (db w))), w).

(** [update_products_on_category_change] (post_save of Category). *)
Definition update_products_on_category_change `{PyFloat} (test_mode : bool)
    (instance : Category.t) : M unit :=
  related <- products_all instance ;;
  for_each related (fun product => registry_update test_mode product op_index true).

(** The receivers are connected only when not running tests (line 83). *)
Definition post_save_Product `{PyFloat} (test_mode : bool)
  : list (Product.t -> M unit) :=
  if test_mode then [] else [index_product test_mode].

Definition post_delete_Product `{PyFloat} (test_mode : bool)
  : list (Product.t -> M unit) :=
  if test_mode then [] else [delete_product test_mode].

Definition post_save_Category `{PyFloat} (test_mode : bool)
  : list (Category.t -> M unit) :=
  if test_mode then [] else [update_products_on_category_change test_mode].

(** Modelled from the spec: the notification channel fired synchronously
    after each relational mutation (section 6); receivers run in turn
    and an exception of a receiver propagates to the sender. *)
Definition send `{PyFloat} {X} (receivers : list (X -> M unit)) (instance : X)
  : M unit :=
  for_each receivers (fun receiver => receiver instance).

(** Modelled from the spec: the relational store keyed by integer id
    (section 6); a write inserts or replaces the row with that id. *)
Definition put_product (p : Product.t) (rows : list Product.t) : list Product.t :=
  if existsb (fun r => bool_decide (Product.id r = Product.id p)) rows
  then map (fun r => if bool_decide (Product.id r = Product.id p) then p else r) rows
  else rows ++ [p].

Definition put_category (c : Category.t) (rows : list Category.t)
  : list Category.t :=
  if existsb (fun r => bool_decide (Category.id r = Category.id c)) rows
  then map (fun r => if bool_decide (Category.id r = Category.id c) then c else r) rows
  else rows ++ [c].

Definition set_db `{PyFloat} (d : Database) (w : World) : World :=
  {| db := d; es := es w; stdout := stdout w |}.

(** Modelled from the spec: [Product.save()], the relational write
    followed by its notification. *)
Definition Product_save `{PyFloat} (test_mode : bool) (p : Product.t) : M unit :=
  (fun w => (Return tt,
             set_db {| categories := categories (db w);
                       products := put_product p (products (db w)) |} w)) ;;
  send (post_save_Product test_mode) p.

(** Modelled from the spec: [Product.delete()], the relational delete
    followed by its notification. *)
Definition Product_delete `{PyFloat} (test_mode : bool) (p : Product.t) : M unit :=
  (fun w => (Return tt,
             set_db {| categories := categories (db w);
                       products := filter (fun r => Product.id r ≠ Product.id p)
                                     (products (db w)) |} w)) ;;
  send (post_delete_Product test_mode) p.

(** Modelled from the spec: [Category.save()], the relational write
    followed by its notification. *)
Definition Category_save `{PyFloat} (test_mode : bool) (c : Category.t) : M unit :=
  (fun w => (Return tt,
             set_db {| categories := put_category c (categories (db w));
                       products := products (db w) |} w)) ;;
  send (post_save_Category test_mode) c.

(** [Category.__str__] and [Product.__str__]. *)
Definition Category_str (self : Category.t) : string := Category.name self.
Definition Product_str (self : Product.t) : string := Product.name self.

(** [get_image_url] of both models: the URL, or the empty string when
    there is no image. *)
Definition Category_get_image_url (self : Category.t) : string :=
  match Category.image self with
  | Some url => url
  | None => EmptyString
  end.

Definition Product_get_image_url (self : Product.t) : string :=
  match Product.image self with
  | Some url => url
  | None => EmptyString
  end.

End models.

(** ** catalog/management/commands/populate_es.py *)

Module populate_es.
Import documents.
Open Scope py_scope.

Definition error_line (product : Product.t) (e : Exception) : string :=
  "Error indexing product " +:+ pretty (Product.id product) +:+ ": "
    +:+ str_exception e.

Definition progress_line (indexed_count : Z) : string :=
  "Indexed " +:+ pretty indexed_count +:+ " products...".

Definition success_line (indexed_count : Z) : string :=
  "Successfully indexed " +:+ pretty indexed_count +:+ " products".

Definition failed_line (failed : Z) : string :=
  "Note: " +:+ pretty failed +:+ " products failed to index".

(** The loop of lines 76-89, threading [indexed_count]. *)
Fixpoint index_products `{PyFloat} (test_mode : bool) (todo : list Product.t)
    (indexed_count : Z) : M Z :=
  match todo with
  | [] => ret indexed_count
  | product :: rest =>
      n <- try_except
             (update test_mode product op_index true ;;
              let indexed_count := indexed_count + 1 in
              (if bool_decide (indexed_count `mod` 100 = 0)
               then write PLAIN (progress_line indexed_count)
               else ret tt) ;;
              ret indexed_count)
             (fun e =>
                write ERROR (error_line product e) ;;
                ret indexed_count) ;;
      index_products test_mode rest n
  end.

(** [Product.objects.select_related('category').all()] and [.count()]. *)
Definition Product_all `{PyFloat} : M (list Product.t) :=
  fun w => (Return (products (db w)), w).

Definition count_ {A} (rows : list A) : Z := Z.of_nat (length rows).

(** [Command.handle]. *)
Definition handle `{PyFloat} (test_mode : bool) : M unit :=
  write PLAIN "Deleting existing Elasticsearch index..." ;;
  Index_delete [404] ;;
  write SUCCESS "Index deleted successfully" ;;
  write PLAIN "Creating new Elasticsearch index..." ;;
  Index_create ;;
  write SUCCESS "Index created successfully" ;;
  write PLAIN "Fetching products from database..." ;;
  rows <- Product_all ;;
  write PLAIN ("Found " +:+ pretty (count_ rows) +:+ " products to index") ;;
  write PLAIN "Indexing products in Elasticsearch..." ;;
  indexed_count <- index_products test_mode rows 0 ;;
  write SUCCESS (success_line indexed_count) ;;
  if bool_decide (indexed_count < count_ rows)
  then write WARNING (failed_line (count_ rows - indexed_count))
  else ret tt.

(** The lines [handle] writes before the loop and after it. *)
Definition preamble (found : Z) : list (Style * string) :=
  [(PLAIN, "Deleting existing Elasticsearch index...");
   (SUCCESS, "Index deleted successfully");
   (PLAIN, "Creating new Elasticsearch index...");
   (SUCCESS, "Index created successfully");
   (PLAIN, "Fetching products from database...");
   (PLAIN, "Found " +:+ pretty found +:+ " products to index");
   (PLAIN, "Indexing products in Elasticsearch...")].

Definition final_report (found indexed_count : Z) : list (Style * string) :=
  (SUCCESS, success_line indexed_count)
  :: (if bool_decide (indexed_count < found)
      then [(WARNING, failed_line (found - indexed_count))]
      else []).

(** The report states the number of failed documents. *)
Definition states_failed (out : list (Style * string)) (failed : Z) : Prop :=
  (WARNING, failed_line failed) ∈ out.

(** The report states the number of indexed documents. *)
Definition states_succeeded (out : list (Style * string)) (indexed_count : Z)
  : Prop :=
  (SUCCESS, success_line indexed_count) ∈ out.

End populate_es.

(** ** catalog/views.py: the suggest endpoint *)

Module suggest_view.

(** [validated_data] of [SuggestQuerySerializer]: [q] is required and
    [size] has a default, so both are present. *)
Record SuggestQuery := {
  q : string;
  size : Z
}.

(** What the field declarations guarantee (serializers.py, lines 170-172). *)
Record valid (d : SuggestQuery) : Prop := {
  valid_q : q d <> EmptyString;
  valid_size : 1 <= size d <= 10
}.

(** The suggest clause added by [s.suggest(name, text, completion=...)]. *)
Record SuggestRequest := {
  suggest_name : string;
  suggest_text : string;
  completion_field : string;
  completion_size : Z
}.

(** [res.suggest]: for each suggester name a list of entries, each with
    its options; an option has a [text]. *)
Record SuggestOption := {
  text : string
}.

Record SuggestEntry := {
  options : list SuggestOption
}.

(** Modelled from the spec: completion-suggest execution of the engine
    client (section 6), [s.execute()] on a request with a suggest clause. *)
Class SuggestBackend := {
  execute_suggest : SuggestRequest -> outcome (gmap string (list SuggestEntry))
}.

(** How the view ends: with a response, with an exception of the
    serializer or the engine, or with the IndexError of [entries[0]]. *)
Inductive Response :=
| response_200 (q : string) (options : list string) (size : Z)
| response_400 (errors : Exception).

Inductive Ending :=
| responds (r : Response)
| raises (e : Exception)
| raises_IndexError.

(** Lines 285-290: the request sent to the engine. *)
Definition suggest_request (data : SuggestQuery) : SuggestRequest :=
  {| suggest_name := "product-suggest"; suggest_text := q data;
     completion_field := "suggest"; completion_size := size data |}.

(** [ProductSuggestView.get]; [params] is the result of the serializer. *)
Definition get `{SuggestBackend} (test_mode : bool)
    (params : outcome SuggestQuery) : Ending :=
  if test_mode then
    match params with
    | Raise errors => responds (response_400 errors)
    | Return data => responds (response_200 (q data) [] (size data))
    end
  else
    match params with
    | Raise errors => raises errors
    | Return data =>
        let q := q data in
        let size := size data in
        let s := suggest_request data in
        match execute_suggest s with
        | Raise e => raises e
        | Return res =>
            match res !! "product-suggest" with
            | None => responds (response_200 q [] size)
            | Some [] => raises_IndexError
            | Some (first :: _) =>
                responds (response_200 q (map text (options first)) size)
            end
        end
    end.

End suggest_view.

(** ** catalog/management/commands/wait_for_db.py *)

Module wait_for_db.
Import documents.

Inductive Error :=
| KeyError (key : string)
| ValueError (message : string)
| OperationalError (message : string).

Inductive Result :=
| returned
| raised (e : Error).

(** [p.port]: the port of the URL, None when the URL names no port, or
    ValueError when the port is not a number from 0 to 65535. *)
Inductive Port :=
| port_value (number : option Z)
| port_invalid (message : string).

(** The parts of [urlparse(url)] that the command reads. *)
Record ParseResult := {
  hostname : option string;
  port : Port;
  username : option string;
  password : option string;
  path : string
}.

(** [urlparse(url)]: the parts, or ValueError for a URL that cannot be
    split (a malformed IPv6 host). *)
Inductive Parsed :=
| parsed (p : ParseResult)
| parse_error (message : string).

(** The keyword arguments of [psycopg2.connect]. *)
Record ConnectArgs := {
  dbname : string;
  user : option string;
  pass : option string;
  host : option string;
  host_port : option Z;
  connect_timeout : Z
}.

(** The process environment and the two library calls: [urlparse], and
    [psycopg2.connect], whose n-th call (counted from 1) either succeeds
    ([None]) or raises with a message. *)
Record Environment := {
  environ : gmap string string;
  urlparse : string -> Parsed;
  connect : ConnectArgs -> Z -> option string
}.

(** What the command leaves behind: its output, the seconds it slept,
    and the connections it tried. *)
Record State := {
  out : list (Style * string);
  slept : list Z;
  connects : list ConnectArgs
}.

Definition start : State := {| out := []; slept := []; connects := [] |}.

Definition write (style : Style) (line : string) (st : State) : State :=
  {| out := out st ++ [(style, line)]; slept := slept st;
     connects := connects st |}.

Definition sleep (seconds : Z) (st : State) : State :=
  {| out := out st; slept := slept st ++ [seconds]; connects := connects st |}.

Definition connected (args : ConnectArgs) (st : State) : State :=
  {| out := out st; slept := slept st; connects := connects st ++ [args] |}.

Definition max_attempts : Z := 30.

(** [str(x)] for an optional string or integer ([None] prints as None). *)
Definition str_option (o : option string) : string :=
  match o with
  | Some x => x
  | None => "None"
  end.

(** [p.path[1:]]. *)
Definition tail_of (path : string) : string :=
  match path with
  | String _ rest => rest
  | EmptyString => EmptyString
  end.

Definition attempt_line (attempt : Z) (message : string) : string :=
  "Attempt " +:+ pretty attempt +:+ "/" +:+ pretty max_attempts
    +:+ ": Database not ready - " +:+ message.

Definition retry_line (delay : Z) : string :=
  "Retrying in " +:+ pretty delay +:+ " seconds...".

(** The delay after a failed attempt (line 115). *)
Definition backoff (attempt : Z) : Z := Z.min (2 ^ attempt) 10.

(** The [while] loop of lines 79-119; [fuel] bounds the number of turns
    and [None] means that it ran out. *)
Fixpoint retry (env : Environment) (args : ConnectArgs) (fuel : nat)
    (attempt : Z) (st : State) : option (Result * State) :=
  if bool_decide (attempt <= max_attempts) then
    match fuel with
    | O => None
    | S fuel =>
        let nth := Z.of_nat (length (connects st)) + 1 in
        let st := connected args st in
        match connect env args nth with
        | None =>
            Some (returned,
                  write SUCCESS "Database is ready and accepting connections." st)
        | Some e =>
            let st := write PLAIN (attempt_line attempt e) st in
            if bool_decide (attempt >= max_attempts) then
              Some (raised (OperationalError e),
                    write ERROR "Max attempts reached. Exiting." st)
            else
              let delay := backoff attempt in
              let st := write PLAIN (retry_line delay) st in
              let st := sleep delay st in
              retry env args fuel (attempt + 1) st
        end
    end
  else Some (returned, st).

(** [Command.handle]. *)
Definition handle (env : Environment) : option (Result * State) :=
  match environ env !! "DATABASE_URL" with
  | None => Some (raised (KeyError "DATABASE_URL"), start)
  | Some url =>
      match urlparse env url with
      | parse_error message => Some (raised (ValueError message), start)
      | parsed p =>
          let st := write PLAIN "Waiting for database to be ready..." start in
          match port p with
          | port_invalid message => Some (raised (ValueError message), st)
          | port_value number =>
              let st :=
                write PLAIN ("Host: " +:+ str_option (hostname p)
                             +:+ ", Port: " +:+ str_option (pretty <$> number)
                             +:+ ", Database: " +:+ tail_of (path p)) st in
              let args := {| dbname := tail_of (path p); user := username p;
                             pass := password p; host := hostname p;
                             host_port := number; connect_timeout := 5 |} in
              retry env args (Z.to_nat max_attempts) 1 st
          end
      end
  end.

End wait_for_db.

(** ** Concrete instances used to run the model *)

Module fixtures.
Import serializers documents views.

(** Floats read back exactly as the decimal they came from. *)
#[export] Instance ExactFloat : PyFloat := {| Float := Decimal; float d := d |}.

Definition settings : Settings := {| PAGE_SIZE := 20; MAX_PAGE_SIZE := 100 |}.

(** A corpus of twelve matching documents, five hits on the page. *)
Definition sample_hit (n : Z) : Hit :=
  {| meta_id := pretty n; meta_score := None;
     hit_category_id := 1; hit_category_name := "Phones";
     hit_name := "Phone"; hit_price := 29999;
     hit_description := None; hit_image := Some "/media/products/phone.jpg" |}.

#[export] Instance twelve_matches : SearchBackend :=
  {| execute _ := Return {| hits_total := total_object 12 "eq";
                            hits := map sample_hit [6; 7; 8; 9; 10] |} |}.

Definition page_two : SearchQuery :=
  {| q := EmptyString; category := None; price_min := None; price_max := None;
     sort := "relevance"; page := 2; page_size := 5 |}.

(** price_min=100.00 with price_max=50.00, other fields arbitrary. *)
Definition crossed_prices : SearchQuery :=
  {| q := "phone"; category := Some [1]; price_min := Some 10000;
     price_max := Some 5000; sort := "price_desc"; page := 3; page_size := 7 |}.

Definition lower_bound_only : SearchQuery :=
  {| q := "phone"; category := None; price_min := Some 1000;
     price_max := None; sort := "price_asc"; page := 1; page_size := 20 |}.

Definition with_category (raw : string) : SearchQuery :=
  {| q := EmptyString;
     category := match validate_category (Some raw) with
                 | Return ids => Some ids
                 | Raise _ => None
                 end;
     price_min := None; price_max := None;
     sort := "relevance"; page := 1; page_size := 20 |}.

Definition phones : Category.t :=
  {| Category.id := 1; Category.name := "Phones";
     Category.description := "Mobile phones"; Category.image := None |}.

Definition laptops : Category.t :=
  {| Category.id := 2; Category.name := "Laptops";
     Category.description := EmptyString; Category.image := None |}.

Definition phone (id : Z) : Product.t :=
  {| Product.id := id; Product.category := 1; Product.name := "Phone";
     Product.price := 29999; Product.image := Some "/media/products/phone.jpg";
     Product.description := "A phone" |}.

(** A phone whose image was never uploaded. *)
Definition sketch (id : Z) : Product.t :=
  {| Product.id := id; Product.category := 1; Product.name := "Phone";
     Product.price := 29999; Product.image := None;
     Product.description := "A phone" |}.

Definition laptop (id : Z) : Product.t :=
  {| Product.id := id; Product.category := 2; Product.name := "Laptop";
     Product.price := 99900; Product.image := Some "/media/products/laptop.jpg";
     Product.description := "A laptop" |}.

Definition store : Database :=
  {| categories := [phones; laptops];
     products := [phone 1; laptop 2; phone 3; phone 4] |}.

(** Worlds: a healthy cluster without index, the same cluster refusing
    document 3, and a cluster that does not answer. *)
Definition cluster (up : bool) (refused : gset Z) : Elasticsearch :=
  {| reachable := up; products_index := None; rejected := refused |}.

Definition healthy : World :=
  {| db := store; es := cluster true ∅; stdout := [] |}.

Definition picky : World :=
  {| db := store; es := cluster true {[3]}; stdout := [] |}.

Definition offline : World :=
  {| db := store; es := cluster false ∅; stdout := [] |}.

(** Environments for the database wait: a server that accepts from the
    given attempt on, and one that never does. *)
Definition parsed_url : wait_for_db.ParseResult :=
  {| wait_for_db.hostname := Some "db";
     wait_for_db.port := wait_for_db.port_value (Some 5432);
     wait_for_db.username := Some "shop"; wait_for_db.password := Some "secret";
     wait_for_db.path := "/catalog" |}.

Definition server_up_from (first : Z) : wait_for_db.Environment :=
  {| wait_for_db.environ := {["DATABASE_URL" := "postgres://shop:secret@db:5432/catalog"]};
     wait_for_db.urlparse := fun _ => wait_for_db.parsed parsed_url;
     wait_for_db.connect := fun _ nth =>
       if bool_decide (nth < first) then Some "connection refused" else None |}.

Definition server_down : wait_for_db.Environment :=
  {| wait_for_db.environ := {["DATABASE_URL" := "postgres://shop:secret@db:5432/catalog"]};
     wait_for_db.urlparse := fun _ => wait_for_db.parsed parsed_url;
     wait_for_db.connect := fun _ _ => Some "connection refused" |}.


(** A DATABASE_URL whose port is not a number. *)
Definition bad_port : wait_for_db.Environment :=
  {| wait_for_db.environ := {["DATABASE_URL" := "postgres://shop:secret@db:abc/catalog"]};
     wait_for_db.urlparse := fun _ =>
       wait_for_db.parsed
         {| wait_for_db.hostname := Some "db";
            wait_for_db.port :=
              wait_for_db.port_invalid
                "Port could not be cast to integer value as 'abc'";
            wait_for_db.username := Some "shop";
            wait_for_db.password := Some "secret";
            wait_for_db.path := "/catalog" |};
     wait_for_db.connect := fun _ _ => None |}.

(** A healthy cluster over a store in which product 2 has no image. *)
Definition sketchy : World :=
  {| db := {| categories := [phones; laptops];
              products := [phone 1; sketch 2; phone 3] |};
     es := cluster true ∅; stdout := [] |}.

(** A healthy cluster over a store in which no product has an image. *)
Definition drafts : World :=
  {| db := {| categories := [phones; laptops];
              products := [sketch 1; sketch 2] |};
     es := cluster true ∅; stdout := [] |}.

(** A suggest engine with one entry of three options for every text. *)
Definition phone_answer : gmap string (list suggest_view.SuggestEntry) :=
  {["product-suggest" :=
      [{| suggest_view.options :=
            [{| suggest_view.text := "phone" |};
             {| suggest_view.text := "phone case" |};
             {| suggest_view.text := "phone" |}] |}]]}.

#[export] Instance phone_suggestions : suggest_view.SuggestBackend :=
  {| suggest_view.execute_suggest := fun _ => Return phone_answer |}.

(** A search engine that does not answer. *)
Definition engine_down : views.SearchBackend :=
  {| views.execute := fun _ => Raise ConnectionError |}.

Definition price_window : SearchQuery :=
  {| q := "phone"; category := None; price_min := Some 1000;
     price_max := Some 10000; sort := "price_asc"; page := 1; page_size := 20 |}.

Definition suggest_ph : suggest_view.SuggestQuery :=
  {| suggest_view.q := "ph"; suggest_view.size := 3 |}.

Definition tablets : Category.t :=
  {| Category.id := 3; Category.name := "Tablets";
     Category.description := EmptyString; Category.image := None |}.

Definition smartphones : Category.t :=
  {| Category.id := 1; Category.name := "Smartphones";
     Category.description := "Mobile phones"; Category.image := None |}.

End fixtures.

(** * Properties *)

Section search_view.
Import serializers documents views.
Context `{SearchBackend}.

Lemma test_mode_flags (data : SearchQuery) :
  1 <= page data -> 1 <= page_size data ->
  bool_decide (page data > 1) = bool_decide (window_start data > 0) /\
  false = bool_decide (window_start data + page_size data < 0).
Proof.
  intros Hp Hs. unfold window_start. split.
  - apply bool_decide_ext. nia.
  - symmetry. apply bool_decide_eq_false. nia.
Qed.

Lemma build_search_window (data : SearchQuery) :
  window (build_search data)
  = Some (window_start data, window_start data + page_size data).
Proof. reflexivity. Qed.

(** C1. For a valid search query the page window starts at
    [(page-1)*page_size]; the response has [has_prev] exactly when the
    window start is positive and [has_next] exactly when the window end
    is below the reported total.  The view answers in test mode, and in
    live mode whenever the engine does. *)
Theorem search_pagination_flags (cfg : Settings) (test_mode : bool)
    (data : SearchQuery) :
  valid cfg data ->
  window (build_search data)
    = Some (window_start data, window_start data + page_size data) /\
  (forall p, get test_mode data = Return p ->
     has_prev p = bool_decide (window_start data > 0) /\
     has_next p = bool_decide (window_start data + page_size data < count p)) /\
  (test_mode = true -> exists p, get test_mode data = Return p) /\
  (forall res, test_mode = false -> execute (build_search data) = Return res ->
     exists p, get test_mode data = Return p /\
               count p = total_of (hits_total res)).
Proof.
  intros [_ Hpage [Hsize _] _ _ _]. split; [apply build_search_window|].
  split; [|split].
  - intros p Hget. unfold get in Hget. destruct test_mode.
    + injection Hget as <-. simpl. by apply test_mode_flags.
    + destruct (execute (build_search data)) as [res|e]; [|discriminate].
      injection Hget as <-. simpl. done.
  - intros ->. eexists. reflexivity.
  - intros res -> Hex. unfold get. rewrite Hex. eexists. split; reflexivity.
Qed.

End search_view.

Section search_view_runs.
Import serializers documents views fixtures.

Lemma page_two_valid : valid settings page_two.
Proof.
  constructor; simpl; try lia; try discriminate.
  unfold SORT_CHOICES. left.
Defined.

(** Page 2 of size 5 over twelve matches: both neighbours exist. *)
Lemma search_pagination_flags_witness :
  valid settings page_two /\
  exists p, get false page_two = Return p /\
            count p = 12 /\ has_prev p = true /\ has_next p = true.
Proof.
  split; [exact page_two_valid|].
  destruct (search_pagination_flags settings false page_two page_two_valid)
    as (_ & Hflags & _ & Hlive).
  destruct (Hlive _ eq_refl eq_refl) as (p & Hp & Hc).
  exists p. destruct (Hflags p Hp) as [Hprev Hnext].
  rewrite Hprev, Hnext, Hc. repeat split; try done.
Defined.

End search_view_runs.

Section query_builder.
Import serializers documents views.
Context `{PyFloat}.

Lemma build_search_sort_spec (data : SearchQuery) :
  sort_spec (build_search data)
  = if bool_decide (sort data = "price_asc") then [("price", asc)]
    else if bool_decide (sort data = "price_desc") then [("price", desc)]
    else if bool_decide (q data = EmptyString) then [("id", asc)]
    else [].
Proof.
  unfold build_search. simpl.
  repeat (case_bool_decide; simpl); try reflexivity;
    repeat (case_match; simpl); reflexivity.
Qed.

(** C4. For a valid search query the built request is ordered by
    ascending price for [price_asc], by descending price for
    [price_desc], by the engine's relevance for [relevance] with a
    non-empty term, and by ascending id for [relevance] with an empty
    term; a valid query has one of the three sort modes. *)
Theorem search_sort_order (cfg : Settings) (data : SearchQuery) :
  valid cfg data ->
  (sort data = "price_asc" \/ sort data = "price_desc"
   \/ sort data = "relevance") /\
  (sort data = "price_asc" ->
     ranking (build_search data) = by_field "price" asc) /\
  (sort data = "price_desc" ->
     ranking (build_search data) = by_field "price" desc) /\
  (sort data = "relevance" -> q data <> EmptyString ->
     ranking (build_search data) = by_relevance) /\
  (sort data = "relevance" -> q data = EmptyString ->
     ranking (build_search data) = by_field "id" asc).
Proof.
  intros [Hsort _ _ _ _ _]. unfold ranking.
  rewrite build_search_sort_spec. split.
  - unfold SORT_CHOICES in Hsort.
    rewrite !elem_of_cons, elem_of_nil in Hsort. tauto.
  - repeat split; intros Hs; rewrite Hs; simpl; try reflexivity.
    + intros Hq. by rewrite bool_decide_eq_false_2.
    + intros Hq. by rewrite bool_decide_eq_true_2.
Qed.

Lemma build_search_range_filters (data : SearchQuery) :
  range_filters (build_search data)
  = match price_min data, price_max data with
    | None, None => []
    | lo, hi => [("price", float <$> lo, float <$> hi)]
    end.
Proof.
  unfold build_search, range_filters.
  destruct data as [q0 cat lo hi srt pg ps]. simpl.
  destruct cat as [[|c cs]|], lo, hi; simpl;
    repeat (case_bool_decide; simpl); try reflexivity; congruence.
Qed.

(** C5. Whatever the other fields are, attributes with both price bounds
    present and [price_min > price_max] are rejected with the error that
    states the price relation.  With at most one bound present
    validation passes, and the request carries a price range only for
    the bound that is present: none when both are missing, [gte] alone
    for a lower bound, [lte] alone for an upper bound. *)
Theorem price_bounds_checked (attrs : SearchQuery) :
  (forall lo hi, price_min attrs = Some lo -> price_max attrs = Some hi ->
     lo > hi -> validate attrs = Raise price_relation_error) /\
  (price_min attrs = None \/ price_max attrs = None ->
     validate attrs = Return attrs /\
     range_filters (build_search attrs)
     = match price_min attrs, price_max attrs with
       | None, None => []
       | Some lo, None => [("price", Some (float lo), None)]
       | None, Some hi => [("price", None, Some (float hi))]
       | Some lo, Some hi => [("price", Some (float lo), Some (float hi))]
       end).
Proof.
  split.
  - intros lo hi Hlo Hhi Hgt. unfold validate. rewrite Hlo, Hhi.
    by rewrite bool_decide_eq_true_2.
  - intros Hone. rewrite build_search_range_filters. unfold validate.
    destruct (price_min attrs), (price_max attrs); simpl;
      destruct Hone; try discriminate; done.
Qed.

Lemma build_search_filters (data : SearchQuery) :
  filters (build_search data)
  = ((match default [] (category data) with
      | [] => []
      | ids => [terms "category_id" ids]
      end)
     ++ (if bool_decide (price_min data ≠ None)
            || bool_decide (price_max data ≠ None)
         then [range "price" (float <$> price_min data)
                             (float <$> price_max data)]
         else []))%list.
Proof.
  unfold build_search. destruct data as [q0 cat lo hi srt pg ps]. simpl.
  destruct cat as [[|c cs]|]; simpl;
    repeat (case_bool_decide; simpl); try reflexivity;
    destruct (_ || _); reflexivity.
Qed.

Lemma terms_restriction_category (data : SearchQuery) (ids : list Z)
    (doc : ProductDocument) :
  category data = Some ids -> ids <> [] ->
  terms_restriction (build_search data) doc
  = bool_decide (doc_category_id doc ∈ ids).
Proof.
  intros Hc Hne. unfold terms_restriction. rewrite build_search_filters, Hc.
  destruct ids as [|c cs]; [done|]. simpl.
  destruct (_ || _); simpl; unfold terms_matches; simpl;
    rewrite ?andb_true_r; reflexivity.
Qed.

(** C6. A non-empty category filter puts one [terms] clause on
    [category_id] into the request; a document passes it exactly when its
    category id is among the given ids, so two inputs with the same set
    of ids, whatever their order and duplicates, accept the same
    documents. *)
Theorem category_filter_set_semantics (data1 data2 : SearchQuery)
    (ids1 ids2 : list Z) :
  category data1 = Some ids1 -> category data2 = Some ids2 ->
  ids1 <> [] ->
  (list_to_set ids1 : gset Z) = list_to_set ids2 ->
  terms "category_id" ids1 ∈ filters (build_search data1) /\
  (forall doc, terms_restriction (build_search data1) doc
               = bool_decide (doc_category_id doc ∈ ids1)) /\
  (forall doc, terms_restriction (build_search data1) doc
               = terms_restriction (build_search data2) doc).
Proof.
  intros H1 H2 Hne Hset.
  assert (Hne2 : ids2 <> []).
  { intros ->. destruct ids1 as [|c cs]; [done|].
    assert (c ∈ (list_to_set (c :: cs) : gset Z)) as Hin
      by (apply elem_of_list_to_set; left).
    rewrite Hset in Hin. by apply not_elem_of_empty in Hin. }
  split; [|split].
  - rewrite build_search_filters, H1. destruct ids1; [done|]. simpl. left.
  - intros doc. by apply terms_restriction_category.
  - intros doc.
    rewrite (terms_restriction_category data1 ids1), (terms_restriction_category data2 ids2) by done.
    apply bool_decide_ext.
    rewrite <- (elem_of_list_to_set (C := gset Z) _ ids1).
    rewrite <- (elem_of_list_to_set (C := gset Z) _ ids2).
    by rewrite Hset.
Qed.

End query_builder.

Section result_projector.
Import serializers documents views.
Context `{SearchBackend}.

(** C8 (the code does not do this for description and image).  The hits
    are instances of the document class, which declares both fields: for
    a hit without [description] or [image] the lookup gives null instead
    of raising, the default that the view passes to getattr is never
    used, and the item is emitted with null there, not with the empty
    string; a stored text is emitted as it is.  The rest of the claim
    holds: a hit whose score is absent or null is emitted with a null
    score; the total is the integer itself when the engine reports a
    scalar and the [value] field when it reports an object; the response
    carries that integer and one projected item per hit, in engine
    order. *)
Theorem result_projection (data : SearchQuery) (res : Results) :
  (forall hit, hit_description hit = None ->
     item_description (project_hit hit) = None /\
     item_description (project_hit hit) <> Some EmptyString) /\
  (forall hit, hit_image hit = None ->
     item_image (project_hit hit) = None /\
     item_image (project_hit hit) <> Some EmptyString) /\
  (forall hit, item_description (project_hit hit) = hit_description hit /\
               item_image (project_hit hit) = hit_image hit) /\
  (forall hit, meta_score hit = None \/ meta_score hit = Some None ->
     item_score (project_hit hit) = None) /\
  (forall n, total_of (total_scalar n) = n) /\
  (forall value relation, total_of (total_object value relation) = value) /\
  (execute (build_search data) = Return res ->
     exists p, get false data = Return p /\
               count p = total_of (hits_total res) /\
               results p = map project_hit (hits res)).
Proof.
  split; [|split; [|split; [|split; [|split; [|split]]]]].
  - intros hit Hd. unfold project_hit. simpl. rewrite Hd. by split.
  - intros hit Hi. unfold project_hit. simpl. rewrite Hi. by split.
  - intros hit. by split.
  - intros hit [Hs|Hs]; unfold project_hit; simpl; by rewrite Hs.
  - reflexivity.
  - reflexivity.
  - intros Hex. unfold get. rewrite Hex. eexists. repeat split.
Qed.

End result_projector.

Section category_serializer.
Import serializers.

Lemma exists_filter_name (db : Database) (c : Category.t) :
  c ∈ categories db ->
  exists_ (Category_filter_name db (Category.name c)) = true.
Proof.
  intros Hin. unfold Category_filter_name.
  assert (Hc : c ∈ filter (fun r => Category.name r = Category.name c)
                      (categories db))
    by (apply list_elem_of_filter; done).
  destruct (filter _ _); [by apply elem_of_nil in Hc | reflexivity].
Qed.

(** C10. The name check of the category serializer rejects every name
    that some stored category already has, whether the serializer is
    creating a row or updating one; so an update that keeps the row's own
    name is rejected as a duplicate.  A name that no stored category has
    is accepted. *)
Theorem validate_name_ignores_instance (self : CategorySerializer)
    (db : Database) (value : string) :
  ((exists c, c ∈ categories db /\ Category.name c = value) ->
     validate_name self db value = Raise duplicate_name_error) /\
  (forall c, instance self = Some c -> c ∈ categories db ->
     validate_name self db (Category.name c) = Raise duplicate_name_error) /\
  ((forall c, c ∈ categories db -> Category.name c <> value) ->
     validate_name self db value = Return value).
Proof.
  unfold validate_name. repeat split.
  - intros (c & Hin & <-). by rewrite exists_filter_name.
  - intros c _ Hin. by rewrite exists_filter_name.
  - intros Hfresh. unfold Category_filter_name.
    destruct (filter _ _) as [|c rest] eqn:Hf; [reflexivity|].
    assert (Hc : c ∈ filter (fun r => Category.name r = value) (categories db))
      by (rewrite Hf; left).
    apply list_elem_of_filter in Hc as [Hname Hin].
    by destruct (Hfresh c Hin).
Qed.

End category_serializer.

Section query_builder_runs.
Import serializers documents views fixtures.

(** An empty term with the default sort is ordered by ascending id. *)
Lemma search_sort_order_witness :
  valid settings page_two /\
  ranking (build_search page_two) = by_field "id" asc.
Proof.
  split; [exact page_two_valid|].
  destruct (search_sort_order settings page_two page_two_valid)
    as (_ & _ & _ & _ & Hid).
  apply Hid; reflexivity.
Defined.

(** price_min=100.00, price_max=50.00 is rejected; a lone lower bound
    gives a range that is open above. *)
Lemma price_bounds_checked_witness :
  validate crossed_prices = Raise price_relation_error /\
  validate lower_bound_only = Return lower_bound_only /\
  range_filters (build_search lower_bound_only) = [("price", Some 1000, None)].
Proof.
  split.
  - apply (proj1 (price_bounds_checked crossed_prices) 10000 5000);
      [reflexivity | reflexivity | lia].
  - exact (proj2 (price_bounds_checked lower_bound_only) (or_intror eq_refl)).
Defined.

(** The inputs 3,1,3 and 1,3 accept the same documents. *)
Lemma category_filter_set_semantics_witness :
  category (with_category "3,1,3") = Some [3; 1; 3] /\
  category (with_category "1, 3") = Some [1; 3] /\
  forall doc,
    terms_restriction (build_search (with_category "3,1,3")) doc
    = terms_restriction (build_search (with_category "1, 3")) doc.
Proof.
  split; [reflexivity|]. split; [reflexivity|].
  apply (category_filter_set_semantics
           (with_category "3,1,3") (with_category "1, 3") [3; 1; 3] [1; 3]);
    [reflexivity | reflexivity | discriminate |].
  apply set_eq. intros x. rewrite !elem_of_list_to_set, !elem_of_cons, !elem_of_nil.
  tauto.
Defined.

(** A hit without description or score, and a structured total of 12:
    the description is emitted as null. *)
Lemma result_projection_witness :
  item_description (project_hit (sample_hit 6)) = None /\
  item_score (project_hit (sample_hit 6)) = None /\
  exists p, get false page_two = Return p /\ count p = 12.
Proof.
  destruct (result_projection page_two
              {| hits_total := total_object 12 "eq";
                 hits := map sample_hit [6; 7; 8; 9; 10] |})
    as (Hd & _ & _ & Hs & _ & _ & Hget).
  split; [apply Hd; reflexivity|].
  split; [apply Hs; left; reflexivity|].
  destruct (Hget eq_refl) as (p & Hp & Hc & _).
  exists p. split; [exact Hp|]. rewrite Hc. reflexivity.
Defined.

(** Saving Phones again under its own name is refused. *)
Lemma validate_name_ignores_instance_witness :
  phones ∈ categories store /\
  validate_name {| instance := Some phones |} store "Phones"
  = Raise duplicate_name_error.
Proof.
  assert (Hin : phones ∈ categories store) by left.
  split; [exact Hin|].
  destruct (validate_name_ignores_instance
              {| instance := Some phones |} store "Phones") as (_ & Hown & _).
  apply (Hown phones); [reflexivity | exact Hin].
Defined.

End query_builder_runs.

Section engine_client.
Import documents.
Context `{PyFloat}.

Lemma set_es_same (w : World) : set_es (es w) w = w.
Proof. by destruct w. Qed.

Lemma set_index_same (e : Elasticsearch) : set_index (products_index e) e = e.
Proof. by destruct e. Qed.

Lemma prepare_doc_id (d : Database) (thing : Product.t) (doc : ProductDocument) :
  prepared d thing = Some doc -> doc_id doc = Product.id thing.
Proof.
  unfold prepared, prepare. destruct (List.find _ _); [|discriminate].
  destruct (Product.image thing); [|discriminate]. by intros [= <-].
Qed.

Lemma prepared_Some (d : Database) (thing : Product.t) (doc : ProductDocument) :
  prepared d thing = Some doc <-> prepare d thing = Return doc.
Proof.
  unfold prepared. destruct (prepare d thing); split; congruence.
Qed.

(** The preparation fails exactly for a product whose category row is
    missing or which has no image; in the second case with ValueError. *)
Lemma prepared_None (d : Database) (thing : Product.t) :
  prepared d thing = None <-> exists e, prepare d thing = Raise e.
Proof.
  unfold prepared. destruct (prepare d thing); split; try congruence.
  - intros [e' He]. discriminate.
  - intros _. by eexists.
Qed.

(** A live upsert of an accepted product stores its document. *)
Lemma update_accepted (thing : Product.t) (doc : ProductDocument) (w : World) :
  reachable (es w) = true -> prepared (db w) thing = Some doc ->
  doc_id doc ∉ rejected (es w) ->
  update false thing op_index true w
  = (Return tt,
     set_es (set_index (upserted [doc] (products_index (es w))) (es w)) w).
Proof.
  intros Hr Hp Hok. apply prepared_Some in Hp.
  unfold update, Document_update, bulk. simpl.
  rewrite Hp, Hr. simpl. rewrite bool_decide_eq_false_2 by done.
  destruct (products_index (es w)) as [ix|]; simpl.
  - destruct (bool_decide (is_Some (ix !! doc_id doc)));
      by rewrite bool_decide_eq_true_2 by lia.
  - by rewrite insert_empty.
Qed.

(** A live upsert of a refused product raises and changes nothing. *)
Lemma update_rejected (thing : Product.t) (doc : ProductDocument) (w : World) :
  reachable (es w) = true -> prepared (db w) thing = Some doc ->
  doc_id doc ∈ rejected (es w) ->
  update false thing op_index true w
  = (Raise (BulkIndexError (Product.id thing) 400), w).
Proof.
  intros Hr Hp Hbad. pose proof (prepare_doc_id _ _ _ Hp) as Hid.
  apply prepared_Some in Hp.
  unfold update, Document_update, bulk. simpl.
  rewrite Hp, Hr. simpl. rewrite bool_decide_eq_true_2 by done. simpl.
  by rewrite set_es_same, Hid.
Qed.

(** An upsert against an unreachable cluster raises and changes nothing. *)
Lemma update_unreachable (thing : Product.t) (w : World) :
  reachable (es w) = false -> is_Some (prepared (db w) thing) ->
  update false thing op_index true w = (Raise ConnectionError, w).
Proof.
  intros Hr [doc Hp]. apply prepared_Some in Hp.
  unfold update, Document_update, bulk. simpl.
  by rewrite Hp, Hr.
Qed.

(** An upsert of a product that cannot be prepared raises the exception
    of the preparation, whatever the cluster does, and changes nothing. *)
Lemma update_unprepared (thing : Product.t) (e : Exception) (w : World) :
  prepare (db w) thing = Raise e ->
  update false thing op_index true w = (Raise e, w).
Proof. intros Hp. unfold update, Document_update. simpl. by rewrite Hp. Qed.

(** A prepared document carries the url of the product's image. *)
Lemma prepared_image (d : Database) (thing : Product.t) (doc : ProductDocument) :
  prepared d thing = Some doc ->
  doc_image doc = Product.image thing /\ is_Some (Product.image thing).
Proof.
  unfold prepared, prepare. destruct (List.find _ _); [|discriminate].
  destruct (Product.image thing) as [url|]; [|discriminate].
  intros [= <-]. by split; [|exists url].
Qed.

Lemma prepared_without_image (d : Database) (thing : Product.t) :
  Product.image thing = None -> prepared d thing = None.
Proof.
  intros Himg. unfold prepared, prepare. destruct (List.find _ _); [|reflexivity].
  by rewrite Himg.
Qed.

Lemma prepare_without_image (d : Database) (thing : Product.t) :
  Product.image thing = None ->
  (exists row, row ∈ categories d /\ Category.id row = Product.category thing) ->
  prepare d thing = Raise no_file_error.
Proof.
  intros Himg (row & Hin & Hid). unfold prepare.
  destruct (List.find _ (categories d)) as [c|] eqn:Hfind.
  - by rewrite Himg.
  - apply list_elem_of_In in Hin.
    pose proof (find_none _ _ Hfind row Hin) as Hno. simpl in Hno.
    by rewrite bool_decide_eq_true_2 in Hno.
Qed.

End engine_client.

Section product_delete.
Import documents models.
Context `{PyFloat}.

Lemma delete_product_live (p : Product.t) (w : World) :
  reachable (es w) = true ->
  delete_product false p w
  = (Return tt,
     match indexed w (Product.id p) with
     | Some _ =>
         set_es (set_index (delete (Product.id p) <$> products_index (es w))
                   (es w)) w
     | None => w
     end).
Proof.
  intros Hr. unfold delete_product, registry_delete, registry_update, update.
  unfold Document_update, bulk, indexed. rewrite Hr. simpl.
  destruct (products_index (es w)) as [ix|]; simpl.
  - destruct (ix !! Product.id p); simpl; [reflexivity|].
    by rewrite set_es_same.
  - by rewrite set_es_same.
Qed.

Lemma Product_delete_returns (p : Product.t) (w : World) :
  reachable (es w) = true -> (Product_delete false p w).1 = Return tt.
Proof.
  intros Hr. unfold Product_delete, send, post_delete_Product, for_each, bind.
  rewrite delete_product_live by exact Hr. reflexivity.
Qed.

(** C7. With the cluster answering, the post_delete receiver returns
    normally whether or not the product's document is in the index (and
    whether or not the index exists): a present document is removed and
    the others stay; an absent one leaves the world as it was, so a
    repeated delete succeeds again.  [Product.delete()] as a whole
    returns as well. *)
Theorem delete_product_not_found_ok (p : Product.t) (w : World) :
  reachable (es w) = true ->
  exists w',
    delete_product false p w = (Return tt, w') /\
    indexed w' (Product.id p) = None /\
    (indexed w (Product.id p) = None -> w' = w) /\
    (forall id, id <> Product.id p -> indexed w' id = indexed w id) /\
    delete_product false p w' = (Return tt, w') /\
    (Product_delete false p w).1 = Return tt.
Proof.
  intros Hr. rewrite (delete_product_live p w Hr).
  assert (Hgone : forall w0, reachable (es w0) = true ->
            indexed w0 (Product.id p) = None ->
            delete_product false p w0 = (Return tt, w0)).
  { intros w0 Hr0 Hn. by rewrite (delete_product_live p w0 Hr0), Hn. }
  destruct (indexed w (Product.id p)) as [doc|] eqn:Hdoc.
  - eexists. split; [reflexivity|].
    unfold indexed in *. simpl.
    destruct (products_index (es w)) as [ix|]; [|discriminate]. simpl in *.
    assert (Hdel : delete (Product.id p) ix !! Product.id p = None)
      by apply lookup_delete_eq.
    repeat split.
    + exact Hdel.
    + discriminate.
    + intros id Hne. by apply lookup_delete_ne.
    + apply Hgone; [exact Hr | exact Hdel].
    + by apply Product_delete_returns.
  - exists w. repeat split; try done.
    + by apply Hgone.
    + by apply Product_delete_returns.
Qed.

End product_delete.

Section product_save.
Import documents models.
Context `{PyFloat}.

Lemma prepare_categories (d1 d2 : Database) (thing : Product.t) :
  categories d1 = categories d2 -> prepared d1 thing = prepared d2 thing.
Proof. intros Hc. unfold prepared, prepare. by rewrite Hc. Qed.

Lemma prepare_same_categories (d1 d2 : Database) (thing : Product.t) :
  categories d1 = categories d2 -> prepare d1 thing = prepare d2 thing.
Proof. intros Hc. unfold prepare. by rewrite Hc. Qed.

Lemma put_product_in (p : Product.t) (rows : list Product.t) :
  p ∈ put_product p rows.
Proof.
  unfold put_product.
  destruct (existsb _ rows) eqn:Hex.
  - apply existsb_exists in Hex as (r & Hin & Hid).
    apply bool_decide_eq_true in Hid.
    apply list_elem_of_In, in_map_iff. exists r.
    split; [by rewrite bool_decide_eq_true_2 | exact Hin].
  - apply elem_of_app. right. left.
Qed.

Lemma Product_save_live (p : Product.t) (w : World) :
  Product_save false p w
  = index_product false p
      (set_db {| categories := categories (db w);
                 products := put_product p (products (db w)) |} w).
Proof.
  unfold Product_save, send, post_save_Product, for_each, bind. simpl.
  destruct (index_product false p _) as [[[]|e] w']; reflexivity.
Qed.

Lemma index_product_raises (p : Product.t) (e : Exception) (w : World) :
  update false p op_index true w = (Raise e, w) ->
  index_product false p w = (Raise e, w).
Proof.
  intros Hu. unfold index_product, registry_update, bind. by rewrite Hu.
Qed.

(** C2 (the code does not do this). [Product.save()] sends post_save to
    [index_product], which calls the upsert unguarded.  For a product
    whose document can be prepared (its category is stored and it has an
    image): when the cluster is unreachable, or refuses the document, the
    exception leaves the receiver and reaches the caller of [save()],
    although the row has been written. *)
Theorem product_save_propagates_index_failure (p : Product.t) (w : World) :
  is_Some (prepared (db w) p) ->
  (reachable (es w) = false ->
     exists w', Product_save false p w = (Raise ConnectionError, w') /\
                p ∈ products (db w') /\ es w' = es w) /\
  (reachable (es w) = true -> Product.id p ∈ rejected (es w) ->
     exists w', Product_save false p w
                = (Raise (BulkIndexError (Product.id p) 400), w') /\
                p ∈ products (db w') /\ es w' = es w).
Proof.
  intros [doc Hdoc]. rewrite Product_save_live.
  set (w1 := set_db _ w).
  assert (Hp1 : prepared (db w1) p = Some doc)
    by (rewrite <- Hdoc; by apply prepare_categories).
  split.
  - intros Hr. exists w1. split; [|split; [apply put_product_in | reflexivity]].
    apply index_product_raises, update_unreachable; [exact Hr | by exists doc].
  - intros Hr Hbad. exists w1.
    split; [|split; [apply put_product_in | reflexivity]].
    apply index_product_raises, (update_rejected p doc); [exact Hr | exact Hp1 |].
    by rewrite (prepare_doc_id _ _ _ Hp1).
Qed.

End product_save.

Section category_change.
Import documents models.
Context `{PyFloat}.

Lemma for_each_app {X} (xs ys : list X) (body : X -> M unit) (w : World) :
  for_each (xs ++ ys) body w
  = match for_each xs body w with
    | (Return _, w') => for_each ys body w'
    | (Raise e, w') => (Raise e, w')
    end.
Proof.
  revert w. induction xs as [|x xs IH]; intros w; simpl; [reflexivity|].
  unfold bind. destruct (body x w) as [[[]|e] w1]; [apply IH | reflexivity].
Qed.

Lemma for_each_cons {X} (x : X) (xs : list X) (body : X -> M unit) (w : World) :
  for_each (x :: xs) body w
  = match body x w with
    | (Return _, w') => for_each xs body w'
    | (Raise e, w') => (Raise e, w')
    end.
Proof. reflexivity. Qed.

Lemma upserted_lookup_other (docs : list ProductDocument)
    (ix : option (gmap Z ProductDocument)) (k : Z) :
  k ∉ map doc_id docs ->
  upserted docs ix ≫= (fun m => m !! k) = ix ≫= (fun m => m !! k).
Proof.
  revert ix. induction docs as [|d ds IH]; intros ix Hk; [reflexivity|].
  simpl in Hk. apply not_elem_of_cons in Hk as [Hne Hk].
  change (upserted (d :: ds) ix)
    with (upserted ds (Some (<[doc_id d := d]> (default ∅ ix)))).
  rewrite IH by exact Hk. simpl. rewrite lookup_insert_ne by done.
  destruct ix; [reflexivity | apply lookup_empty].
Qed.

Lemma upserted_lookup_in (docs : list ProductDocument)
    (ix : option (gmap Z ProductDocument)) (k : Z) :
  k ∈ map doc_id docs ->
  exists d, d ∈ docs /\ doc_id d = k /\
            upserted docs ix ≫= (fun m => m !! k) = Some d.
Proof.
  revert ix. induction docs as [|d ds IH]; intros ix Hk.
  - by apply elem_of_nil in Hk.
  - change (upserted (d :: ds) ix)
      with (upserted ds (Some (<[doc_id d := d]> (default ∅ ix)))).
    destruct (decide (k ∈ map doc_id ds)) as [Hin|Hout].
    + destruct (IH (Some (<[doc_id d := d]> (default ∅ ix))) Hin)
        as (d' & Hd' & Hid & Hl).
      exists d'. split; [by right | done].
    + simpl in Hk. apply elem_of_cons in Hk as [->|Hk]; [|done].
      exists d. split; [left|]. split; [reflexivity|].
      rewrite upserted_lookup_other by exact Hout. simpl.
      apply lookup_insert_eq.
Qed.

Lemma indexable_prepare (w : World) (p : Product.t) :
  indexable w p = true ->
  exists doc, prepared (db w) p = Some doc /\ doc_id doc ∉ rejected (es w).
Proof.
  unfold indexable. destruct (prepared (db w) p) as [doc|]; [|discriminate].
  intros Hok. apply bool_decide_eq_true in Hok. by exists doc.
Qed.

(** A live upsert of a product that is not indexable raises and leaves
    the world as it was. *)
Lemma update_not_indexable (p : Product.t) (w : World) :
  reachable (es w) = true -> indexable w p = false ->
  exists e, update false p op_index true w = (Raise e, w).
Proof.
  intros Hr Hbad. unfold indexable in Hbad.
  destruct (prepared (db w) p) as [doc|] eqn:Hp.
  - apply bool_decide_eq_false in Hbad.
    assert (Hin : doc_id doc ∈ rejected (es w))
      by (destruct (decide (doc_id doc ∈ rejected (es w))); done).
    eexists. by apply (update_rejected p doc).
  - apply prepared_None in Hp as [e He]. exists e. by apply update_unprepared.
Qed.

(** Upserting a list of indexable products one after another. *)
Lemma reindex_all (todo : list Product.t) (w : World) :
  reachable (es w) = true ->
  Forall (fun p => indexable w p = true) todo ->
  for_each todo (fun product => update false product op_index true) w
  = (Return tt,
     set_es (set_index (upserted (omap (prepared (db w)) todo)
                          (products_index (es w))) (es w)) w).
Proof.
  revert w. induction todo as [|p todo IH]; intros w Hr Hall.
  - simpl. unfold ret. by rewrite set_index_same, set_es_same.
  - apply Forall_cons in Hall as [Hp Hall].
    destruct (indexable_prepare w p Hp) as (doc & Hdoc & Hok).
    rewrite for_each_cons, (update_accepted p doc w Hr Hdoc Hok).
    set (w1 := set_es _ w).
    rewrite (IH w1); [| exact Hr | exact Hall].
    simpl. by rewrite Hdoc.
Qed.

End category_change.

Section category_change_receiver.
Import documents models.
Context `{PyFloat}.

Lemma category_change_live (c : Category.t) (w : World) :
  update_products_on_category_change false c w
  = for_each (filter (fun p => Product.category p = Category.id c)
                (products (db w)))
      (fun product => update false product op_index true) w.
Proof. reflexivity. Qed.

Lemma omap_prepare_ids (d : Database) (todo : list Product.t) (k : Z) :
  k ∈ map doc_id (omap (prepared d) todo) -> k ∈ map Product.id todo.
Proof.
  induction todo as [|p todo IH]; simpl; [done|].
  destruct (prepared d p) as [doc|] eqn:Hp; simpl.
  - rewrite !elem_of_cons. intros [->|Hk]; [left | right; by apply IH].
    by apply prepare_doc_id in Hp.
  - intros Hk. right. by apply IH.
Qed.

(** C3 (the code does not tolerate partial failure).  A product is
    indexable when its document can be prepared (it has an image) and the
    cluster does not refuse it.  With every product of the category
    indexable the receiver returns and each of them has its document in
    the index.  But the loop has no handler: when the products before
    [bad] are indexable and [bad] is not, the receiver raises at [bad],
    the index holds the upserts made so far, and the documents of the
    remaining products are exactly what they were. *)
Theorem category_change_stops_at_first_failure (c : Category.t) (w : World) :
  reachable (es w) = true ->
  (Forall (fun p => indexable w p = true)
     (filter (fun p => Product.category p = Category.id c) (products (db w))) ->
   exists w',
     update_products_on_category_change false c w = (Return tt, w') /\
     forall p, p ∈ products (db w) -> Product.category p = Category.id c ->
       exists doc, indexed w' (Product.id p) = Some doc /\
                   doc_id doc = Product.id p) /\
  (forall (before : list Product.t) (bad : Product.t) (rest : list Product.t),
     filter (fun p => Product.category p = Category.id c) (products (db w))
     = (before ++ bad :: rest)%list ->
     Forall (fun p => indexable w p = true) before ->
     indexable w bad = false ->
     exists e w',
       update_products_on_category_change false c w = (Raise e, w') /\
       products_index (es w')
       = upserted (omap (prepared (db w)) before) (products_index (es w)) /\
       forall r, r ∈ rest -> Product.id r ∉ map Product.id before ->
         indexed w' (Product.id r) = indexed w (Product.id r)).
Proof.
  intros Hr. rewrite category_change_live. split.
  - intros Hall. rewrite (reindex_all _ w Hr Hall). eexists.
    split; [reflexivity|]. intros p Hin Hcat.
    assert (Hrel : p ∈ filter (fun p => Product.category p = Category.id c)
                         (products (db w)))
      by (by apply list_elem_of_filter).
    rewrite Forall_forall in Hall.
    destruct (indexable_prepare w p (Hall p Hrel)) as (doc & Hdoc & _).
    set (docs := omap (prepared (db w)) _).
    assert (Hk : Product.id p ∈ map doc_id docs).
    { apply list_elem_of_fmap. exists doc.
      split; [symmetry; by apply (prepare_doc_id (db w)) |].
      apply list_elem_of_omap. by exists p. }
    destruct (upserted_lookup_in docs (products_index (es w)) _ Hk)
      as (d & _ & Hid & Hl).
    exists d. by split.
  - intros before bad rest Hsplit Hdone Hbad. rewrite Hsplit.
    rewrite for_each_app, (reindex_all before w Hr Hdone).
    set (w1 := set_es _ w).
    destruct (update_not_indexable bad w1 Hr Hbad) as [e He].
    exists e, w1. rewrite for_each_cons, He.
    split; [reflexivity|]. split; [reflexivity|].
    intros r _ Hfresh. unfold indexed. simpl.
    apply upserted_lookup_other. intros Hk. apply Hfresh.
    by apply (omap_prepare_ids (db w)).
Qed.

End category_change_receiver.

Section full_rebuild.
Import documents populate_es.
Context `{PyFloat}.

Lemma indexable_ext (w1 w2 : World) (p : Product.t) :
  db w1 = db w2 -> rejected (es w1) = rejected (es w2) ->
  indexable w1 p = indexable w2 p.
Proof. intros Hd Hj. unfold indexable. by rewrite Hd, Hj. Qed.

(** One turn of the indexing loop. *)
Lemma index_products_cons (p : Product.t) (rest : list Product.t) (n : Z)
    (w : World) :
  index_products false (p :: rest) n w
  = match update false p op_index true w with
    | (Return _, w1) =>
        index_products false rest (n + 1)
          (if bool_decide ((n + 1) `mod` 100 = 0)
           then say PLAIN (progress_line (n + 1)) w1 else w1)
    | (Raise e, w1) =>
        index_products false rest n (say ERROR (error_line p e) w1)
    end.
Proof.
  cbn [index_products]. unfold bind, try_except.
  destruct (update false p op_index true w) as [[[]|e] w1].
  - by destruct (bool_decide ((n + 1) `mod` 100 = 0)).
  - reflexivity.
Qed.

(** What the loop does to a world whose cluster answers: it never
    raises, counts the indexable products, upserts exactly their
    documents, and writes only progress and error lines, one error line
    for each product that failed. *)
Lemma index_products_spec (todo : list Product.t) (n : Z) (w : World) :
  reachable (es w) = true ->
  exists w' log,
    index_products false todo n w
    = (Return (n + count_ (filter (fun p => indexable w p = true) todo)), w') /\
    db w' = db w /\
    reachable (es w') = true /\
    rejected (es w') = rejected (es w) /\
    products_index (es w')
    = upserted (omap (prepared (db w))
                  (filter (fun p => indexable w p = true) todo))
        (products_index (es w)) /\
    stdout w' = (stdout w ++ log)%list /\
    Forall (fun l => l.1 = PLAIN \/ l.1 = ERROR) log /\
    (forall p, p ∈ todo -> indexable w p = false ->
       exists e, (ERROR, error_line p e) ∈ log).
Proof.
  revert n w. induction todo as [|p todo IH]; intros n w Hr.
  - exists w, []. simpl. unfold ret, count_. simpl.
    rewrite Z.add_0_r, app_nil_r. repeat split; try done.
    intros p Hp. by apply elem_of_nil in Hp.
  - rewrite index_products_cons.
    destruct (indexable w p) eqn:Hp.
    + destruct (indexable_prepare w p Hp) as (doc & Hdoc & Hok).
      rewrite (update_accepted p doc w Hr Hdoc Hok).
      set (w1 := set_es _ w).
      set (w2 := if bool_decide ((n + 1) `mod` 100 = 0)
                 then say PLAIN (progress_line (n + 1)) w1 else w1).
      assert (Hw2 : db w2 = db w /\ es w2 = es w1 /\
                exists l2, stdout w2 = (stdout w ++ l2)%list /\
                           Forall (fun l => l.1 = PLAIN \/ l.1 = ERROR) l2).
      { unfold w2. destruct (bool_decide _); simpl.
        - repeat split. eexists. split; [reflexivity|].
          apply Forall_singleton. by left.
        - repeat split. exists []. by rewrite app_nil_r. }
      destruct Hw2 as (Hdb2 & Hes2 & l2 & Hout2 & Hl2).
      assert (Hr2 : reachable (es w2) = true) by (by rewrite Hes2).
      destruct (IH (n + 1) w2 Hr2)
        as (w' & log & Hrun & Hdb & Hre & Hrej & Hix & Hout & Hlog & Herr).
      assert (Hsame : forall q, indexable w2 q = indexable w q).
      { intros q. apply indexable_ext; [exact Hdb2 | by rewrite Hes2]. }
      assert (Hfil : filter (fun q => indexable w2 q = true) todo
                     = filter (fun q => indexable w q = true) todo).
      { apply list_filter_iff. intros q. by rewrite Hsame. }
      exists w', (l2 ++ log)%list. rewrite Hrun, Hfil.
      rewrite filter_cons_True by exact Hp.
      split; [f_equal; f_equal; unfold count_; simpl length; lia|].
      split; [by rewrite Hdb|]. split; [exact Hre|].
      split; [by rewrite Hrej, Hes2|].
      split; [rewrite Hix, Hfil, Hdb2, Hes2; simpl; by rewrite Hdoc|].
      split; [by rewrite Hout, Hout2, app_assoc|].
      split; [by apply Forall_app|].
      intros q Hq Hbad. apply elem_of_cons in Hq as [->|Hq]; [congruence|].
      destruct (Herr q Hq) as [e He]; [by rewrite Hsame|].
      exists e. apply elem_of_app. by right.
    + destruct (update_not_indexable p w Hr Hp) as [e He]. rewrite He.
      set (w1 := say ERROR (error_line p e) w).
      destruct (IH n w1 Hr)
        as (w' & log & Hrun & Hdb & Hre & Hrej & Hix & Hout & Hlog & Herr).
      assert (Hfil : filter (fun q => indexable w1 q = true) todo
                     = filter (fun q => indexable w q = true) todo)
        by reflexivity.
      exists w', ((ERROR, error_line p e) :: log). rewrite Hrun, Hfil.
      rewrite filter_cons_False by (by rewrite Hp).
      split; [reflexivity|]. split; [exact Hdb|]. split; [exact Hre|].
      split; [exact Hrej|]. split; [exact Hix|].
      split; [rewrite Hout; simpl; by rewrite <- app_assoc|].
      split; [apply Forall_cons; split; [by right | exact Hlog]|].
      intros q Hq Hbad. apply elem_of_cons in Hq as [->|Hq].
      * exists e. left.
      * destruct (Herr q Hq Hbad) as [e' He']. exists e'. by right.
Qed.

End full_rebuild.

Section full_rebuild_command.
Import documents populate_es.
Context `{PyFloat}.

Lemma Index_delete_missing_ok (w : World) :
  reachable (es w) = true ->
  Index_delete [404] w = (Return tt, set_es (set_index None (es w)) w).
Proof.
  intros Hr. unfold Index_delete. rewrite Hr.
  destruct (products_index (es w)) eqn:Hix; [reflexivity|].
  rewrite bool_decide_eq_true_2 by left.
  by rewrite <- Hix, set_index_same, set_es_same.
Qed.

Lemma Index_create_fresh (w : World) :
  reachable (es w) = true -> products_index (es w) = None ->
  Index_create w = (Return tt, set_es (set_index (Some ∅) (es w)) w).
Proof. intros Hr Hix. unfold Index_create. by rewrite Hr, Hix. Qed.

(** C9, as the code has it.  With the cluster answering the rebuild never
    raises, whether or not the index existed: the old index is dropped, a
    new one is created and holds exactly the documents of the products
    that could be indexed; each product that failed gets an error line
    and the loop goes on; the output ends with the number of indexed
    products, followed by the number of failed ones when that number is
    positive and by nothing when it is zero.  No warning line is written
    before that. *)
Theorem full_rebuild_report (w : World) :
  reachable (es w) = true ->
  exists w' log,
    handle false w = (Return tt, w') /\
    products_index (es w')
    = upserted (omap (prepared (db w))
                  (filter (fun p => indexable w p = true) (products (db w))))
        (Some ∅) /\
    (forall p, p ∈ products (db w) -> indexable w p = false ->
       exists e, (ERROR, error_line p e) ∈ log) /\
    Forall (fun l => l.1 = PLAIN \/ l.1 = ERROR) log /\
    stdout w'
    = (stdout w ++ preamble (count_ (products (db w))) ++ log
       ++ final_report (count_ (products (db w)))
            (count_ (filter (fun p => indexable w p = true)
                       (products (db w)))))%list.
Proof.
  intros Hr. unfold handle, bind, write, Product_all.
  rewrite Index_delete_missing_ok by exact Hr.
  rewrite Index_create_fresh by (simpl; done).
  set (w0 := say PLAIN "Indexing products in Elasticsearch..." _).
  assert (Hr0 : reachable (es w0) = true) by exact Hr.
  destruct (index_products_spec (products (db w)) 0 w0 Hr0)
    as (w1 & log & Hrun & Hdb & Hre & Hrej & Hix & Hout & Hlog & Herr).
  assert (Hfil : filter (fun q => indexable w0 q = true) (products (db w))
                 = filter (fun q => indexable w q = true) (products (db w)))
    by reflexivity.
  change (db (say PLAIN "Fetching products from database..." _))
    with (db w).
  rewrite Hrun, Hfil, Z.add_0_l.
  set (ok := count_ (filter _ _)).
  exists (if bool_decide (ok < count_ (products (db w)))
          then say WARNING (failed_line (count_ (products (db w)) - ok))
                 (say SUCCESS (success_line ok) w1)
          else say SUCCESS (success_line ok) w1), log.
  split; [by destruct (bool_decide _)|].
  split; [destruct (bool_decide _); simpl; rewrite Hix, Hfil; reflexivity|].
  split; [exact Herr|]. split; [exact Hlog|].
  unfold final_report.
  destruct (bool_decide _); simpl; rewrite Hout; simpl;
    rewrite <- !app_assoc; reflexivity.
Qed.

End full_rebuild_command.

Section synchronizer_runs.
Import documents models populate_es fixtures.

(** Deleting product 1 when the index does not even exist. *)
Lemma delete_product_not_found_ok_witness :
  reachable (es healthy) = true /\
  indexed healthy 1 = None /\
  delete_product false (phone 1) healthy = (Return tt, healthy).
Proof.
  split; [reflexivity|]. split; [reflexivity|].
  destruct (delete_product_not_found_ok (phone 1) healthy eq_refl)
    as (w' & Hrun & _ & Hsame & _).
  rewrite Hrun. f_equal. apply Hsame. reflexivity.
Defined.

(** Saving product 5 while the cluster is down; saving product 3 while
    the cluster refuses document 3. *)
Lemma product_save_propagates_index_failure_witness :
  is_Some (prepared (db offline) (phone 5)) /\
  (exists w', Product_save false (phone 5) offline = (Raise ConnectionError, w') /\
              phone 5 ∈ products (db w') /\ es w' = es offline) /\
  (exists w', Product_save false (phone 3) picky
              = (Raise (BulkIndexError 3 400), w') /\
              phone 3 ∈ products (db w') /\ es w' = es picky).
Proof.
  assert (H5 : is_Some (prepared (db offline) (phone 5)))
    by (eexists; reflexivity).
  assert (H3 : is_Some (prepared (db picky) (phone 3)))
    by (eexists; reflexivity).
  split; [exact H5|]. split.
  - apply (proj1 (product_save_propagates_index_failure (phone 5) offline H5)).
    reflexivity.
  - apply (proj2 (product_save_propagates_index_failure (phone 3) picky H3));
      [reflexivity|].
    apply elem_of_singleton. reflexivity.
Defined.

(** Renaming Phones while the cluster refuses document 3: product 1 is
    re-indexed, the receiver raises at product 3, product 4 is never
    reached. *)
Lemma category_change_stops_at_first_failure_witness :
  filter (fun p => Product.category p = Category.id phones) (products (db picky))
  = [phone 1; phone 3; phone 4] /\
  Forall (fun p => is_Some (prepared (db picky) p)) [phone 1; phone 3; phone 4] /\
  exists e w',
    update_products_on_category_change false phones picky = (Raise e, w') /\
    is_Some (indexed w' 1) /\
    indexed w' 4 = None.
Proof.
  split; [reflexivity|].
  split; [repeat constructor; by eexists|].
  destruct (proj2 (category_change_stops_at_first_failure phones picky eq_refl)
              [phone 1] (phone 3) [phone 4])
    as (e & w' & Hrun & Hix & Hrest).
  - reflexivity.
  - apply Forall_singleton. reflexivity.
  - reflexivity.
  - exists e, w'. split; [exact Hrun|].
    split; [unfold indexed; rewrite Hix; by eexists|].
    transitivity (indexed picky (Product.id (phone 4))); [|reflexivity].
    apply (Hrest (phone 4)); [left|].
    simpl. intros Hin. apply elem_of_cons in Hin as [Hin|Hin];
      [discriminate | by apply elem_of_nil in Hin].
Defined.

(** A rebuild over four products of which document 3 is refused. *)
Lemma full_rebuild_report_witness :
  reachable (es picky) = true /\
  exists w', handle false picky = (Return tt, w') /\
             states_succeeded (stdout w') 3 /\ states_failed (stdout w') 1.
Proof.
  split; [reflexivity|].
  destruct (full_rebuild_report picky eq_refl)
    as (w' & log & Hrun & _ & _ & _ & Hout).
  exists w'. split; [exact Hrun|].
  unfold states_succeeded, states_failed. rewrite Hout.
  change (final_report _ _)
    with [(SUCCESS, success_line 3); (WARNING, failed_line 1)].
  split; rewrite !elem_of_app; right; right; right; [left | right; left].
Defined.

(** A rebuild in which nothing fails (four products, each with its
    category and its image, on a cluster that accepts them) writes the
    number of indexed products and not a word about failed ones. *)
Lemma full_rebuild_silent_about_zero_failures :
  Forall (fun p => indexable healthy p = true /\ is_Some (Product.image p))
    (products (db healthy)) /\
  (handle false healthy).1 = Return tt /\
  states_succeeded (stdout (handle false healthy).2) 4 /\
  ~ exists failed, states_failed (stdout (handle false healthy).2) failed.
Proof.
  assert (Hout : stdout (handle false healthy).2
                 = (preamble 4 ++ [(SUCCESS, success_line 4)])%list)
    by (vm_compute; reflexivity).
  split; [repeat constructor; by eexists|].
  split; [vm_compute; reflexivity|].
  unfold states_succeeded, states_failed. rewrite Hout. split.
  - apply elem_of_app. right. left.
  - intros [failed Hin]. unfold preamble in Hin. simpl in Hin.
    repeat (apply elem_of_cons in Hin as [Hin|Hin]; [discriminate|]).
    by apply elem_of_nil in Hin.
Qed.

End synchronizer_runs.

Section category_rename.
Import documents models.
Context `{PyFloat}.

Lemma find_put_category (c : Category.t) (rows : list Category.t) :
  List.find (fun r => bool_decide (Category.id r = Category.id c))
    (put_category c rows) = Some c.
Proof.
  unfold put_category.
  destruct (existsb _ rows) eqn:Hex.
  - induction rows as [|r rows IH]; [discriminate|].
    simpl in *.
    destruct (bool_decide (Category.id r = Category.id c)) eqn:Hb; simpl.
    + by rewrite bool_decide_eq_true_2.
    + rewrite Hb. by apply IH.
  - induction rows as [|r rows IH]; simpl in *.
    + by rewrite bool_decide_eq_true_2.
    + apply orb_false_iff in Hex as [Hr Hex]. rewrite Hr. by apply IH.
Qed.

(** X21. In the healthy case a category save reaches the index: when
    the cluster answers and every product of the category has an image
    and is not refused, the save returns and every product of the
    category ends up with a document that carries the saved id and name
    of the category. *)
Lemma category_rename_reaches_documents (c : Category.t) (w : World) :
  reachable (es w) = true ->
  (forall p, p ∈ products (db w) -> Product.category p = Category.id c ->
     is_Some (Product.image p) /\ Product.id p ∉ rejected (es w)) ->
  exists w',
    Category_save false c w = (Return tt, w') /\
    forall p, p ∈ products (db w) -> Product.category p = Category.id c ->
      exists doc, indexed w' (Product.id p) = Some doc /\
                  doc_category doc = (Category.id c, Category.name c).
Proof.
  intros Hr Hok.
  set (w1 := set_db {| categories := put_category c (categories (db w));
                       products := products (db w) |} w).
  set (related := filter (fun p => Product.category p = Category.id c)
                    (products (db w))).
  assert (Hprep : forall p, p ∈ related ->
            exists doc, prepared (db w1) p = Some doc /\
                        doc_category doc = (Category.id c, Category.name c)).
  { intros p Hp. apply list_elem_of_filter in Hp as [Hcat Hin].
    destruct (Hok p Hin Hcat) as [[url Hurl] _].
    unfold prepared, prepare. simpl. rewrite Hcat, find_put_category, Hurl.
    eexists. split; reflexivity. }
  assert (Hall : Forall (fun p => indexable w1 p = true) related).
  { apply Forall_forall. intros p Hp.
    destruct (Hprep p Hp) as (doc & Hdoc & _). unfold indexable.
    rewrite Hdoc. apply bool_decide_eq_true.
    rewrite (prepare_doc_id _ _ _ Hdoc).
    apply list_elem_of_filter in Hp as [Hcat Hin]. by apply Hok. }
  assert (Hrun : Category_save false c w
                 = for_each related
                     (fun product => update false product op_index true) w1).
  { unfold Category_save, send, post_save_Category, bind.
    rewrite for_each_cons, category_change_live. fold w1.
    change (products (db w1)) with (products (db w)). fold related.
    by destruct (for_each related _ w1) as [[[]|e] w']. }
  rewrite Hrun, (reindex_all related w1 Hr Hall). eexists.
  split; [reflexivity|]. intros p Hin Hcat.
  assert (Hp : p ∈ related) by (by apply list_elem_of_filter).
  destruct (Hprep p Hp) as (doc & Hdoc & _).
  set (docs := omap (prepared (db w1)) related).
  assert (Hk : Product.id p ∈ map doc_id docs).
  { apply list_elem_of_fmap. exists doc.
    split; [symmetry; by apply (prepare_doc_id (db w1)) |].
    apply list_elem_of_omap. by exists p. }
  destruct (upserted_lookup_in docs (products_index (es w1)) _ Hk)
    as (d & Hd & _ & Hl).
  exists d. split; [exact Hl|].
  apply list_elem_of_omap in Hd as (q & Hq & Hdq).
  destruct (Hprep q Hq) as (doc' & Hdoc' & Hcatname).
  by rewrite Hdq in Hdoc'; injection Hdoc' as <-.
Qed.

End category_rename.

(** * Further properties of the modelled code *)

Section category_parameter.
Import serializers.

(** Whatever holds for a string and survives a decimal digit in front of
    it holds for the string with a rendered number in front of it. *)
Lemma pretty_N_go_digits (P : string -> Prop) :
  (forall m s, (m < 10)%N -> P s -> P (String (pretty_N_char m) s)) ->
  forall x s, P s -> P (pretty_N_go x s).
Proof.
  intros Hstep x. induction (N.lt_wf_0 x) as [x _ IH]. intros s Hs.
  destruct (decide (0 < x)%N) as [Hpos|Hzero].
  - rewrite pretty_N_go_step by exact Hpos.
    apply IH; [by apply N.div_lt|].
    apply Hstep; [by apply N.mod_lt | exact Hs].
  - assert (x = 0%N) as -> by lia. exact Hs.
Qed.

Lemma digit_value_pretty_N_char (m : N) :
  (m < 10)%N -> digit_value (pretty_N_char m) = Some (Z.of_N m).
Proof.
  intros Hm.
  assert (m = 0 \/ m = 1 \/ m = 2 \/ m = 3 \/ m = 4 \/ m = 5 \/ m = 6
          \/ m = 7 \/ m = 8 \/ m = 9)%N as Hcases by lia.
  repeat (destruct Hcases as [->|Hcases]; [reflexivity|]).
  by subst.
Qed.

Lemma isspace_pretty_N_char (m : N) : isspace (pretty_N_char m) = false.
Proof. unfold pretty_N_char. by repeat case_match. Qed.

Lemma comma_pretty_N_char (m : N) : Ascii.eqb (pretty_N_char m) "," = false.
Proof. unfold pretty_N_char. by repeat case_match. Qed.

(** Reading back the digits that [pretty] wrote. *)
Lemma int_digits_pretty_N_go (x : N) (s : string) (after_digit : bool) :
  (0 < x)%N ->
  int_digits 0 after_digit (pretty_N_go x s) = int_digits (Z.of_N x) true s.
Proof.
  revert s after_digit. induction (N.lt_wf_0 x) as [x _ IH].
  intros s b Hpos. rewrite pretty_N_go_step by exact Hpos.
  assert (Hd := digit_value_pretty_N_char (x `mod` 10)%N
                  (N.mod_lt x 10 ltac:(done))).
  assert (Hx : (Z.of_N (x `div` 10) * 10 + Z.of_N (x `mod` 10) = Z.of_N x)%Z).
  { pose proof (N.div_mod x 10 ltac:(done)) as Hdm.
    rewrite Hdm at 3. rewrite N2Z.inj_add, N2Z.inj_mul. simpl Z.of_N. ring. }
  destruct (decide (0 < x `div` 10)%N) as [Hq|Hq].
  - rewrite IH; [|by apply N.div_lt|exact Hq].
    simpl. rewrite Hd. by rewrite Hx.
  - assert (x `div` 10 = 0)%N as Hz by (by apply N.le_0_r, N.nlt_ge).
    rewrite Hz in *.
    rewrite pretty_N_go_0. simpl. rewrite Hd. simpl in Hx. by rewrite Hx.
Qed.

Lemma pretty_N_go_head (x : N) (s : string) :
  (0 < x)%N ->
  exists c rest, pretty_N_go x s = String c rest /\ is_Some (digit_value c).
Proof.
  intros Hpos. rewrite pretty_N_go_step by exact Hpos.
  apply (pretty_N_go_digits
           (fun r => exists c rest, r = String c rest /\ is_Some (digit_value c))).
  - intros m r Hm _. exists (pretty_N_char m), r.
    split; [reflexivity|]. rewrite digit_value_pretty_N_char by exact Hm. eauto.
  - exists (pretty_N_char (x `mod` 10)), s. split; [reflexivity|].
    rewrite digit_value_pretty_N_char by (by apply N.mod_lt). eauto.
Qed.

Lemma int_digit_head (c : ascii) (rest : string) :
  is_Some (digit_value c) ->
  int (String c rest) = int_body false (String c rest).
Proof.
  intros [d Hd].
  destruct c as [[] [] [] [] [] [] [] []]; try reflexivity;
    vm_compute in Hd; discriminate.
Qed.

(** A text that is its own leading run has nothing after the run. *)
Lemma int_body_run (negative : bool) (body : string) :
  leading_run body = body ->
  int_body negative body
  = match int_digits 0 false body with
    | Some n =>
        if bool_decide (count_digits body > int_max_str_digits)
        then Raise digit_limit_exceeded
        else Return (if negative then - n else n)
    | None => Raise invalid_literal
    end.
Proof.
  intros Hrun. unfold int_body. rewrite Hrun.
  destruct (int_digits 0 false body); [|reflexivity].
  destruct (bool_decide (count_digits body > _)); [reflexivity|].
  by rewrite bool_decide_eq_true_2.
Qed.

Lemma leading_run_pretty_N_go (x : N) :
  leading_run (pretty_N_go x EmptyString) = pretty_N_go x EmptyString.
Proof.
  apply (pretty_N_go_digits (fun s => leading_run s = s)); [|reflexivity].
  intros m s Hm Hs. simpl. by rewrite digit_value_pretty_N_char, Hs.
Qed.

Lemma count_digits_cons (m : N) (s : string) :
  (m < 10)%N -> count_digits (String (pretty_N_char m) s) = 1 + count_digits s.
Proof. intros Hm. simpl. by rewrite digit_value_pretty_N_char. Qed.

Lemma count_digits_grows (x : N) (s : string) :
  count_digits s <= count_digits (pretty_N_go x s).
Proof.
  apply (pretty_N_go_digits (fun r => count_digits s <= count_digits r)); [|lia].
  intros m r Hm Hr. rewrite count_digits_cons by exact Hm. lia.
Qed.

Lemma div_10_bounds (x : N) (b : Z) :
  (Z.of_N x < 10 * b -> Z.of_N (x `div` 10) < b) /\
  (0 <= b -> 10 * b <= Z.of_N x -> b <= Z.of_N (x `div` 10)).
Proof.
  rewrite N2Z.inj_div. change (Z.of_N 10) with 10. split.
  - intros Hx. apply Z.div_lt_upper_bound; lia.
  - intros Hb Hx. apply Z.div_le_lower_bound; lia.
Qed.

(** A number below 10^k is written with at most k digits. *)
Lemma count_digits_upper (k : nat) (x : N) (s : string) :
  Z.of_N x < 10 ^ Z.of_nat k ->
  count_digits (pretty_N_go x s) <= Z.of_nat k + count_digits s.
Proof.
  revert x s. induction k as [|k IH]; intros x s Hx.
  - assert (x = 0%N) as -> by (change (10 ^ Z.of_nat 0) with 1 in Hx; lia).
    rewrite pretty_N_go_0. lia.
  - destruct (decide (0 < x)%N) as [Hpos|Hzero].
    + rewrite pretty_N_go_step by exact Hpos.
      rewrite Nat2Z.inj_succ, Z.pow_succ_r in Hx by lia.
      apply (div_10_bounds x) in Hx. specialize (IH _ (String (pretty_N_char (x `mod` 10)) s) Hx).
      rewrite count_digits_cons in IH by (by apply N.mod_lt). lia.
    + assert (x = 0%N) as -> by lia. rewrite pretty_N_go_0. lia.
Qed.

(** A number from 10^k on is written with more than k digits. *)
Lemma count_digits_lower (k : nat) (x : N) (s : string) :
  10 ^ Z.of_nat k <= Z.of_N x ->
  Z.of_nat k + 1 + count_digits s <= count_digits (pretty_N_go x s).
Proof.
  revert x s. induction k as [|k IH]; intros x s Hx.
  - change (10 ^ Z.of_nat 0) with 1 in Hx.
    rewrite pretty_N_go_step by lia.
    pose proof (count_digits_grows (x `div` 10)
                  (String (pretty_N_char (x `mod` 10)) s)) as Hg.
    rewrite count_digits_cons in Hg by (by apply N.mod_lt). lia.
  - rewrite Nat2Z.inj_succ, Z.pow_succ_r in Hx by lia.
    assert (0 < 10 ^ Z.of_nat k) by (apply Z.pow_pos_nonneg; lia).
    rewrite pretty_N_go_step by lia.
    apply (div_10_bounds x) in Hx; [|lia].
    specialize (IH _ (String (pretty_N_char (x `mod` 10)) s) Hx).
    rewrite count_digits_cons in IH by (by apply N.mod_lt). lia.
Qed.

Lemma limit_as_nat : Z.of_nat (Z.to_nat int_max_str_digits) = int_max_str_digits.
Proof. reflexivity. Qed.

(** What [int] makes of a rendered integer: the integer, if it has at
    most 4300 digits, and the ValueError of the limit otherwise. *)
Lemma int_pretty_cases (z : Z) :
  int (pretty z)
  = if bool_decide (count_digits (pretty z) > int_max_str_digits)
    then Raise digit_limit_exceeded
    else Return z.
Proof.
  destruct z as [|p|p]; [reflexivity| |].
  - change (pretty (Z.pos p)) with (pretty_N_go (N.pos p) EmptyString).
    destruct (pretty_N_go_head (N.pos p) EmptyString) as (c & rest & Heq & Hc);
      [done|].
    rewrite Heq, (int_digit_head c rest Hc), <- Heq.
    rewrite int_body_run by apply leading_run_pretty_N_go.
    by rewrite int_digits_pretty_N_go.
  - change (pretty (Z.neg p))
      with (String "-" (pretty_N_go (N.pos p) EmptyString)).
    change (int (String "-" ?r)) with (int_body true r).
    change (count_digits (String "-" ?r)) with (count_digits r).
    rewrite int_body_run by apply leading_run_pretty_N_go.
    by rewrite int_digits_pretty_N_go.
Qed.

Lemma count_digits_pretty (z : Z) :
  (Z.abs z < 10 ^ int_max_str_digits ->
   count_digits (pretty z) <= int_max_str_digits) /\
  (10 ^ int_max_str_digits <= Z.abs z ->
   count_digits (pretty z) > int_max_str_digits).
Proof.
  rewrite <- limit_as_nat at 1 3.
  destruct z as [|p|p].
  - split; [intros _; vm_compute; discriminate|].
    intros Hz. assert (0 < 10 ^ Z.of_nat (Z.to_nat int_max_str_digits))
      by (apply Z.pow_pos_nonneg; lia). simpl in Hz. lia.
  - change (pretty (Z.pos p)) with (pretty_N_go (N.pos p) EmptyString).
    split; intros Hz.
    + pose proof (count_digits_upper _ (N.pos p) EmptyString Hz) as Hc.
      rewrite limit_as_nat in Hc. simpl in Hc. lia.
    + pose proof (count_digits_lower _ (N.pos p) EmptyString Hz) as Hc.
      rewrite limit_as_nat in Hc. simpl in Hc. lia.
  - change (pretty (Z.neg p))
      with (String "-" (pretty_N_go (N.pos p) EmptyString)).
    change (count_digits (String "-" ?r)) with (count_digits r).
    split; intros Hz.
    + pose proof (count_digits_upper _ (N.pos p) EmptyString Hz) as Hc.
      rewrite limit_as_nat in Hc. simpl in Hc. lia.
    + pose proof (count_digits_lower _ (N.pos p) EmptyString Hz) as Hc.
      rewrite limit_as_nat in Hc. simpl in Hc. lia.
Qed.

Lemma int_pretty (z : Z) :
  Z.abs z < 10 ^ int_max_str_digits -> int (pretty z) = Return z.
Proof.
  intros Hz. rewrite int_pretty_cases.
  apply count_digits_pretty in Hz. by rewrite bool_decide_eq_false_2 by lia.
Qed.

Lemma int_pretty_over_limit (z : Z) :
  10 ^ int_max_str_digits <= Z.abs z ->
  int (pretty z) = Raise digit_limit_exceeded.
Proof.
  intros Hz. rewrite int_pretty_cases.
  apply count_digits_pretty in Hz. by rewrite bool_decide_eq_true_2 by lia.
Qed.

End category_parameter.

Section category_parameter_parsing.
Import serializers views.

Lemma rstrip_cons (c : ascii) (r : string) :
  rstrip r = r -> isspace c = false -> rstrip (String c r) = String c r.
Proof. intros Hr Hc. simpl. rewrite Hr, Hc. by destruct r. Qed.

Lemma split_comma_cons (c : ascii) (r : string) :
  split_comma r = [r] -> Ascii.eqb c "," = false ->
  split_comma (String c r) = [String c r].
Proof. intros Hr Hc. simpl. by rewrite Hc, Hr. Qed.

(** A rendered integer has no blanks at its ends and no comma. *)
Lemma strip_pretty (z : Z) : strip (pretty z) = pretty z.
Proof.
  assert (Hgo : forall x, rstrip (pretty_N_go x EmptyString)
                          = pretty_N_go x EmptyString).
  { intros x. apply (pretty_N_go_digits (fun s => rstrip s = s)); [|done].
    intros m s _ Hs. apply rstrip_cons; [exact Hs|apply isspace_pretty_N_char]. }
  unfold strip. destruct z as [|p|p]; [reflexivity| |].
  - change (pretty (Z.pos p)) with (pretty_N_go (N.pos p) EmptyString).
    destruct (pretty_N_go_head (N.pos p) EmptyString) as (c & rest & Heq & Hc);
      [done|].
    assert (Hl : lstrip (pretty_N_go (N.pos p) EmptyString)
                 = pretty_N_go (N.pos p) EmptyString).
    { rewrite Heq. simpl. destruct Hc as [d Hd].
      destruct c as [[] [] [] [] [] [] [] []]; try reflexivity;
        vm_compute in Hd; discriminate. }
    by rewrite Hl, Hgo.
  - change (pretty (Z.neg p))
      with (String "-" (pretty_N_go (N.pos p) EmptyString)).
    change (lstrip (String "-" ?s)) with (String "-" s).
    by apply rstrip_cons.
Qed.

Lemma split_comma_pretty (z : Z) : split_comma (pretty z) = [pretty z].
Proof.
  assert (Hgo : forall x, split_comma (pretty_N_go x EmptyString)
                          = [pretty_N_go x EmptyString]).
  { intros x. apply (pretty_N_go_digits (fun s => split_comma s = [s])); [|done].
    intros m s _ Hs. apply split_comma_cons; [exact Hs|apply comma_pretty_N_char]. }
  destruct z as [|p|p]; [reflexivity|apply Hgo|].
  change (pretty (Z.neg p))
    with (String "-" (pretty_N_go (N.pos p) EmptyString)).
  by apply split_comma_cons.
Qed.

Lemma pretty_nonempty (z : Z) : pretty z <> EmptyString.
Proof.
  intros Hz. pose proof (split_comma_pretty z) as Hs.
  pose proof (int_pretty_cases z) as Hi. rewrite Hz in Hi.
  destruct (bool_decide _); discriminate.
Qed.

Lemma split_comma_nonempty (s : string) : split_comma s <> [].
Proof.
  destruct s as [|c s]; simpl; [done|].
  destruct (Ascii.eqb c ","); [done|]. by destruct (split_comma s).
Qed.

(** Splitting a part without comma, a comma and the rest. *)
Lemma split_comma_app (x rest : string) :
  split_comma x = [x] ->
  split_comma (x +:+ String "," rest) = x :: split_comma rest.
Proof.
  induction x as [|c x IH]; intros Hx; [reflexivity|].
  simpl in *. destruct (Ascii.eqb c ",").
  - injection Hx as _ Hx. by destruct (split_comma_nonempty x).
  - destruct (split_comma x) as [|y ys] eqn:Hs;
      [by destruct (split_comma_nonempty x)|].
    injection Hx as -> ->. by rewrite IH.
Qed.

Lemma split_comma_concat (parts : list string) :
  parts <> [] -> Forall (fun x => split_comma x = [x]) parts ->
  split_comma (String.concat "," parts) = parts.
Proof.
  induction parts as [|x parts IH]; [done|]. intros _ Hall.
  apply Forall_cons in Hall as [Hx Hall].
  destruct parts as [|y parts]; [exact Hx|].
  change (String.concat "," (x :: y :: parts))
    with (x +:+ String "," (String.concat "," (y :: parts))).
  rewrite split_comma_app by exact Hx. f_equal. by apply IH.
Qed.

Lemma ints_of_parts_pretty (ids : list Z) :
  Forall (fun z => Z.abs z < 10 ^ int_max_str_digits) ids ->
  ints_of_parts (map pretty ids) = Return ids.
Proof.
  induction ids as [|z ids IH]; [reflexivity|]. intros Hall.
  apply Forall_cons in Hall as [Hz Hall].
  simpl. rewrite strip_pretty.
  rewrite bool_decide_eq_true_2 by apply pretty_nonempty.
  by rewrite int_pretty, IH.
Qed.

Lemma validate_category_parts (value : string) :
  validate_category (Some value)
  = match ints_of_parts (split_comma value) with
    | Return ids => Return ids
    | Raise (ValueError _) =>
        Raise (ValidationError "category"
                 "category must be a comma-separated list of integers")
    | Raise e => Raise e
    end.
Proof. by destruct value. Qed.

(** X1. Round trip within the digit limit: the decimal renderings of
    integers that have at most 4300 digits each, joined by commas, are
    read back as that list.  The limit is sharp: the rendering of an
    integer with more digits is refused with the error of the category
    field. *)
Theorem validate_category_reads_rendered_ids (ids : list Z) :
  (Forall (fun z => Z.abs z < 10 ^ int_max_str_digits) ids ->
   validate_category (Some (String.concat "," (map pretty ids))) = Return ids) /\
  (forall z, 10 ^ int_max_str_digits <= Z.abs z ->
     validate_category (Some (pretty z))
     = Raise (ValidationError "category"
                "category must be a comma-separated list of integers")).
Proof.
  split.
  - intros Hall. rewrite validate_category_parts.
    destruct ids as [|z ids]; [reflexivity|].
    rewrite split_comma_concat.
    + by rewrite ints_of_parts_pretty.
    + done.
    + apply Forall_forall. intros x Hx.
      apply list_elem_of_fmap in Hx as (y & -> & _). apply split_comma_pretty.
  - intros z Hz. rewrite validate_category_parts, split_comma_pretty. simpl.
    rewrite strip_pretty.
    rewrite bool_decide_eq_true_2 by apply pretty_nonempty.
    by rewrite int_pretty_over_limit.
Qed.

End category_parameter_parsing.

Section category_parameter_errors.
Import serializers views.
Context `{PyFloat}.

Lemma int_body_raises (negative : bool) (body : string) (e : Exception) :
  int_body negative body = Raise e -> exists msg, e = ValueError msg.
Proof.
  unfold int_body. destruct (int_digits 0 false _); [|intros [= <-]; by eexists].
  destruct (bool_decide (count_digits _ > _)); [intros [= <-]; by eexists|].
  destruct (bool_decide _); [discriminate | intros [= <-]; by eexists].
Qed.

Lemma int_raises (x : string) (e : Exception) :
  int x = Raise e -> exists msg, e = ValueError msg.
Proof. unfold int. repeat case_match; apply int_body_raises. Qed.

Lemma ints_of_parts_outcome (parts : list string) :
  (exists ids, ints_of_parts parts = Return ids /\
     Forall (fun x => strip x = EmptyString \/ exists n, int (strip x) = Return n)
       parts) \/
  (exists msg x, ints_of_parts parts = Raise (ValueError msg) /\
     x ∈ parts /\ strip x <> EmptyString /\
     int (strip x) = Raise (ValueError msg)).
Proof.
  induction parts as [|x parts IH].
  - left. exists []. by split.
  - simpl. case_bool_decide as Hblank.
    + destruct (int (strip x)) as [n|e] eqn:Hint.
      * destruct IH as [(ids & -> & Hall)|(msg & y & -> & Hy & Hbad)].
        -- left. exists (n :: ids). split; [done|].
           apply Forall_cons. split; [right; by exists n | exact Hall].
        -- right. exists msg, y. split; [done|]. split; [by right | exact Hbad].
      * right. destruct (int_raises _ _ Hint) as [msg ->].
        exists msg, x. split; [reflexivity|]. split; [left|]. by split.
    + destruct IH as [(ids & -> & Hall)|(msg & y & -> & Hy & Hbad)].
      * left. exists ids. split; [done|].
        apply Forall_cons. split; [left | exact Hall].
        by destruct (decide (strip x = EmptyString)).
      * right. exists msg, y. split; [done|]. split; [by right | exact Hbad].
Qed.

(** X2. The category parameter is either read as a list of ids or
    refused with the validation error of the category field; no other
    exception leaves the validator.  It is refused exactly when one of
    its comma-separated parts, blanks stripped, is neither empty nor an
    integer literal.  An absent value is the empty list. *)
Theorem validate_category_refuses_exactly_bad_parts (value : string) :
  validate_category None = Return [] /\
  ((exists ids, validate_category (Some value) = Return ids) \/
   validate_category (Some value)
   = Raise (ValidationError "category"
              "category must be a comma-separated list of integers")) /\
  (validate_category (Some value)
   = Raise (ValidationError "category"
              "category must be a comma-separated list of integers")
   <-> exists x e, x ∈ split_comma value /\ strip x <> EmptyString /\
                   int (strip x) = Raise e).
Proof.
  split; [reflexivity|]. rewrite validate_category_parts.
  destruct (ints_of_parts_outcome (split_comma value))
    as [(ids & -> & Hall)|(msg & x & -> & Hx & Hne & Hbad)].
  - split; [left; by exists ids|]. split; [discriminate|].
    intros (x & e & Hx & Hne & Hbad). rewrite Forall_forall in Hall.
    destruct (Hall x Hx) as [Hblank|[n Hn]]; [done|]. by rewrite Hn in Hbad.
  - split; [by right|]. split; [|done]. intros _. by exists x, (ValueError msg).
Qed.

(** X3. A category parameter whose parts are all blank (only commas and
    white space) is read as the empty list, and the request built from it
    is the request built without a category parameter. *)
Theorem blank_category_is_no_filter (value : string) (data : SearchQuery) :
  Forall (fun x => strip x = EmptyString) (split_comma value) ->
  validate_category (Some value) = Return [] /\
  (category data = Some [] ->
   build_search data
   = build_search {| q := q data; category := None;
                     price_min := price_min data; price_max := price_max data;
                     sort := sort data; page := page data;
                     page_size := page_size data |}).
Proof.
  intros Hblank. split.
  - rewrite validate_category_parts.
    assert (Hparts : ints_of_parts (split_comma value) = Return []).
    { induction (split_comma value) as [|x parts IH]; [reflexivity|].
      apply Forall_cons in Hblank as [Hx Hrest]. simpl.
      rewrite bool_decide_eq_false_2 by (by intros ?). by apply IH. }
    by rewrite Hparts.
  - intros Hc. unfold build_search. simpl. by rewrite Hc.
Qed.

End category_parameter_errors.

Section category_parameter_runs.
Import serializers views fixtures.

(** The parameter made of a blank, a comma, a tab-free blank and a comma. *)
Lemma blank_category_is_no_filter_witness :
  Forall (fun x => strip x = EmptyString) (split_comma " , ,") /\
  validate_category (Some " , ,") = Return [] /\
  filters (build_search (with_category " , ,")) = [].
Proof.
  assert (Hb : Forall (fun x => strip x = EmptyString) (split_comma " , ,"))
    by (repeat constructor).
  split; [exact Hb|].
  destruct (blank_category_is_no_filter " , ," (with_category " , ,") Hb)
    as [Hparse Hsame].
  split; [exact Hparse|]. by rewrite (Hsame eq_refl).
Defined.

(** Three ids, one of them negative. *)
Lemma validate_category_reads_rendered_ids_witness :
  validate_category (Some "3,-1,20") = Return [3; -1; 20].
Proof.
  apply (proj1 (validate_category_reads_rendered_ids [3; -1; 20])).
  repeat constructor.
Defined.

End category_parameter_runs.

Section product_serializer.
Import serializers documents models.
Context `{PyFloat}.

Lemma exists_filter (A : Type) (P : A -> Prop) `{forall x, Decision (P x)}
    (rows : list A) :
  exists_ (filter P rows) = true <-> exists r, r ∈ rows /\ P r.
Proof.
  split.
  - destruct (filter P rows) as [|r rest] eqn:Hf; [discriminate|]. intros _.
    assert (Hr : r ∈ filter P rows) by (rewrite Hf; left).
    apply list_elem_of_filter in Hr as [HP Hin]. by exists r.
  - intros (r & Hin & HP).
    assert (Hr : r ∈ filter P rows) by (by apply list_elem_of_filter).
    destruct (filter P rows); [by apply elem_of_nil in Hr | reflexivity].
Qed.

(** The document of a product with an image whose category row is
    stored. *)
Lemma prepare_stored_category (d : Database) (p : Product.t) (url : string) :
  Product.image p = Some url ->
  (exists row, row ∈ categories d /\ Category.id row = Product.category p) ->
  exists doc, prepared d p = Some doc /\
              doc_image doc = Some url /\
              doc_id doc = Product.id p /\
              doc_name doc = Product.name p /\
              doc_description doc = Product.description p /\
              doc_category_id doc = Product.category p /\
              doc_price doc = float (Product.price p).
Proof.
  intros Hurl (row & Hin & Hid). unfold prepared, prepare.
  destruct (List.find _ (categories d)) as [c|] eqn:Hfind.
  - apply find_some in Hfind as [_ Hc]. apply bool_decide_eq_true in Hc.
    rewrite Hurl. eexists. split; [reflexivity|]. simpl. by rewrite Hc.
  - apply list_elem_of_In in Hin.
    pose proof (find_none _ _ Hfind row Hin) as Hno. simpl in Hno.
    by rewrite bool_decide_eq_true_2 in Hno.
Qed.

(** X4. The field validators of the product serializer: a category is
    accepted, unchanged, exactly when a stored category has its id, and
    refused with the category error otherwise; a price is accepted,
    unchanged, exactly when it is positive, so zero is refused. *)
Theorem product_validators_accept (d : Database) (value : Category.t)
    (price : Decimal) :
  (ProductSerializer_validate_category d value = Return value
   <-> exists row, row ∈ categories d /\ Category.id row = Category.id value) /\
  (ProductSerializer_validate_category d value = Return value \/
   ProductSerializer_validate_category d value = Raise missing_category_error) /\
  (validate_price price = Return price <-> 0 < price) /\
  (validate_price price = Return price \/ validate_price price = Raise price_error) /\
  validate_price 0 = Raise price_error.
Proof.
  unfold ProductSerializer_validate_category, Category_filter_id, validate_price.
  pose proof (exists_filter _ (fun c => Category.id c = Category.id value)
                (categories d)) as Hex.
  destruct (exists_ (filter _ (categories d))); simpl.
  - split; [split; [intros _; by apply Hex | done]|]. split; [by left|].
    case_bool_decide; repeat split; try done; try lia; by (left + right).
  - split; [split; [discriminate | intros Hrow; by apply Hex in Hrow]|].
    split; [by right|].
    case_bool_decide; repeat split; try done; try lia; by (left + right).
Qed.

(** X5. A product with an image that passed both validators and is
    saved while the cluster answers and accepts it: the save returns, the
    row is stored, and the index holds under the product's id a document
    with its name, its category id, the url of its image and the float
    of its positive price. *)
Theorem validated_product_is_indexed (c : Category.t) (p : Product.t)
    (url : string) (w : World) :
  ProductSerializer_validate_category (db w) c = Return c ->
  validate_price (Product.price p) = Return (Product.price p) ->
  Product.category p = Category.id c ->
  Product.image p = Some url ->
  reachable (es w) = true ->
  Product.id p ∉ rejected (es w) ->
  0 < Product.price p /\
  exists w' doc,
    Product_save false p w = (Return tt, w') /\
    p ∈ products (db w') /\
    indexed w' (Product.id p) = Some doc /\
    doc_name doc = Product.name p /\
    doc_category_id doc = Category.id c /\
    doc_image doc = Some url /\
    doc_price doc = float (Product.price p).
Proof.
  intros Hcat Hprice Hfk Hurl Hr Hok. split.
  { unfold validate_price in Hprice. case_bool_decide; [discriminate | lia]. }
  assert (Hrow : exists row, row ∈ categories (db w) /\
                             Category.id row = Product.category p).
  { rewrite Hfk.
    unfold ProductSerializer_validate_category, Category_filter_id in Hcat.
    apply (exists_filter _ (fun r => Category.id r = Category.id c)).
    by destruct (exists_ _). }
  destruct (prepare_stored_category (db w) p url Hurl Hrow)
    as (doc & Hdoc & Himg & Hid & Hname & _ & Hcid & Hp).
  rewrite Product_save_live. set (w1 := set_db _ w).
  assert (Hdoc1 : prepared (db w1) p = Some doc) by exact Hdoc.
  assert (Hok1 : doc_id doc ∉ rejected (es w1)) by (by rewrite Hid).
  unfold index_product, registry_update, registry_update_related, bind.
  rewrite (update_accepted p doc w1 Hr Hdoc1 Hok1).
  eexists _, doc. split; [reflexivity|]. split; [apply put_product_in|].
  split.
  - unfold indexed. simpl. rewrite <- Hid. apply lookup_insert_eq.
  - by rewrite Hname, Hcid, Hfk, Hp, Himg.
Qed.

End product_serializer.

Section category_names.
Import serializers models.

Lemma validate_name_accepted (self : CategorySerializer) (d : Database)
    (value : string) :
  validate_name self d value = Return value ->
  forall r, r ∈ categories d -> Category.name r <> value.
Proof.
  unfold validate_name, Category_filter_name. intros Hv r Hin Hname.
  assert (Hex : exists_ (filter (fun c => Category.name c = value)
                           (categories d)) = true)
    by (apply exists_filter; by exists r).
  by rewrite Hex in Hv.
Qed.

Lemma put_category_fresh (c : Category.t) (rows : list Category.t) :
  Category.id c ∉ map Category.id rows -> put_category c rows = (rows ++ [c])%list.
Proof.
  intros Hfresh. unfold put_category.
  destruct (existsb _ rows) eqn:Hex; [|reflexivity].
  apply existsb_exists in Hex as (r & Hin & Hid).
  apply bool_decide_eq_true in Hid. destruct Hfresh.
  rewrite <- Hid. apply list_elem_of_fmap. exists r.
  split; [reflexivity | by apply list_elem_of_In].
Qed.

Lemma replace_absent (c : Category.t) (rows : list Category.t) :
  Category.id c ∉ map Category.id rows ->
  map (fun r => if bool_decide (Category.id r = Category.id c) then c else r) rows
  = rows.
Proof.
  induction rows as [|r rows IH]; [reflexivity|]. simpl.
  intros Hfresh. apply not_elem_of_cons in Hfresh as [Hne Hfresh].
  rewrite bool_decide_eq_false_2 by done. by rewrite IH.
Qed.

(** A write that replaces a stored row: the row with the id of [c]
    becomes [c], every other row stays. *)
Lemma put_category_stored (c : Category.t) (rows : list Category.t) :
  NoDup (map Category.id rows) -> Category.id c ∈ map Category.id rows ->
  exists before old after,
    rows = (before ++ old :: after)%list /\
    Category.id old = Category.id c /\
    put_category c rows = (before ++ c :: after)%list.
Proof.
  intros Hnd Hin. unfold put_category.
  assert (Hex : existsb (fun r => bool_decide (Category.id r = Category.id c))
                  rows = true).
  { apply list_elem_of_fmap in Hin as (r & Hid & Hr).
    apply existsb_exists. exists r. split; [by apply list_elem_of_In|].
    by apply bool_decide_eq_true. }
  rewrite Hex. clear Hex.
  induction rows as [|r rows IH]; [by apply elem_of_nil in Hin|].
  simpl in *. apply NoDup_cons in Hnd as [Hfresh Hnd].
  case_bool_decide as Hid.
  - exists [], r, rows. split; [reflexivity|]. split; [exact Hid|].
    simpl. f_equal. apply replace_absent. by rewrite <- Hid.
  - apply elem_of_cons in Hin as [Heq|Hin]; [by destruct Hid|].
    destruct (IH Hnd Hin) as (before & old & after & -> & Hold & Hput).
    exists (r :: before), old, after. split; [reflexivity|].
    split; [exact Hold|]. simpl. by rewrite Hput.
Qed.

(** X6. Writing a category whose name passed [validate_name] keeps the
    table well formed: if ids and names were unique before the write,
    they are unique after it, whether the write adds a row or replaces
    the row with the same id, and the written row is stored. *)
Theorem validated_category_write_keeps_names_unique
    (self : CategorySerializer) (d : Database) (c : Category.t) :
  NoDup (map Category.id (categories d)) ->
  NoDup (map Category.name (categories d)) ->
  validate_name self d (Category.name c) = Return (Category.name c) ->
  NoDup (map Category.id (put_category c (categories d))) /\
  NoDup (map Category.name (put_category c (categories d))) /\
  c ∈ put_category c (categories d).
Proof.
  intros Hids Hnames Hv.
  pose proof (validate_name_accepted self d _ Hv) as Hnew.
  assert (Hname : Category.name c ∉ map Category.name (categories d)).
  { intros Hin. apply list_elem_of_fmap in Hin as (r & Heq & Hr).
    by destruct (Hnew r Hr). }
  destruct (decide (Category.id c ∈ map Category.id (categories d)))
    as [Hin|Hfresh].
  - destruct (put_category_stored c (categories d) Hids Hin)
      as (before & old & after & Hrows & Hold & ->).
    rewrite Hrows in Hids, Hnames, Hname.
    rewrite !map_app in *. simpl in *. rewrite Hold in Hids.
    split; [exact Hids|]. split.
    + apply NoDup_app in Hnames as (Hb & Hdisj & Ha).
      apply NoDup_cons in Ha as [_ Ha].
      apply not_elem_of_app in Hname as [Hnb Hna].
      apply not_elem_of_cons in Hna as [_ Hna].
      apply NoDup_app. split; [exact Hb|]. split.
      * intros x Hx Hx'. apply elem_of_cons in Hx' as [->|Hx']; [done|].
        apply (Hdisj x Hx). by right.
      * apply NoDup_cons. by split.
    + apply elem_of_app. right. left.
  - rewrite put_category_fresh by exact Hfresh. rewrite !map_app. simpl.
    split; [|split].
    + apply NoDup_app. split; [exact Hids|]. split.
      * intros x Hx Hx'. apply list_elem_of_singleton in Hx'. by subst.
      * apply NoDup_singleton.
    + apply NoDup_app. split; [exact Hnames|]. split.
      * intros x Hx Hx'. apply list_elem_of_singleton in Hx'. by subst.
      * apply NoDup_singleton.
    + apply elem_of_app. right. left.
Qed.

End category_names.

Section wait_for_db_loop.
Import documents wait_for_db.


(** The loop, started at [attempt] with as many connections behind it:
    it stops after [n] failed attempts at the first attempt that
    succeeds, or at attempt 30. *)
Lemma retry_runs (env : Environment) (args : ConnectArgs) (fuel : nat)
    (attempt : Z) (st : State) :
  Z.of_nat (length (connects st)) + 1 = attempt ->
  1 <= attempt <= 30 ->
  31 - attempt <= Z.of_nat fuel ->
  exists n r st',
    0 <= n /\ attempt + n <= 30 /\
    retry env args fuel attempt st = Some (r, st') /\
    connects st' = (connects st ++ replicate (Z.to_nat (n + 1)) args)%list /\
    slept st' = (slept st ++ map backoff (seqZ attempt n))%list /\
    (forall i, attempt <= i < attempt + n -> is_Some (connect env args i)) /\
    match connect env args (attempt + n) with
    | None =>
        r = returned /\
        last (out st')
        = Some (SUCCESS, "Database is ready and accepting connections.")
    | Some e =>
        attempt + n = 30 /\ r = raised (OperationalError e) /\
        last (out st') = Some (ERROR, "Max attempts reached. Exiting.")
    end.
Proof.
  revert attempt st. induction fuel as [|fuel IH]; intros attempt st Hinv Ha Hfuel;
    [lia|].
  cbn [retry]. rewrite bool_decide_eq_true_2 by (unfold max_attempts; lia).
  rewrite Hinv.
  destruct (connect env args attempt) as [e|] eqn:Hc.
  - case_bool_decide as Hlast.
    + unfold max_attempts in Hlast. assert (attempt = 30) as -> by lia.
      exists 0, (raised (OperationalError e)). eexists.
      split; [lia|]. split; [lia|]. split; [reflexivity|].
      simpl. rewrite app_nil_r. split; [reflexivity|]. split; [reflexivity|].
      split; [intros i Hi; lia|]. rewrite Z.add_0_r, Hc.
      split; [reflexivity|]. split; [reflexivity|]. apply last_snoc.
    + unfold max_attempts in Hlast.
      set (st2 := sleep (backoff attempt) _).
      destruct (IH (attempt + 1) st2) as (n & r & st' & Hn & Hle & Hrun & Hcon
                                          & Hslept & Hfail & Hend).
      { unfold st2. simpl. rewrite length_app. simpl. lia. }
      { lia. }
      { lia. }
      exists (n + 1), r, st'. split; [lia|]. split; [lia|].
      split; [exact Hrun|]. split; [|split; [|split]].
      * rewrite Hcon. unfold st2. simpl. rewrite <- app_assoc. f_equal.
        replace (Z.to_nat (n + 1 + 1)) with (S (Z.to_nat (n + 1))) by lia.
        reflexivity.
      * rewrite Hslept. unfold st2. simpl. rewrite <- app_assoc. f_equal.
        rewrite (seqZ_cons attempt (n + 1)) by lia. simpl.
        by replace (Z.pred (n + 1)) with n by lia.
      * intros i Hi. destruct (decide (i = attempt)) as [->|Hne].
        -- by rewrite Hc.
        -- apply Hfail. lia.
      * by replace (attempt + (n + 1)) with (attempt + 1 + n) by lia.
  - exists 0, returned. eexists. split; [lia|]. split; [lia|].
    split; [reflexivity|]. simpl. rewrite app_nil_r.
    split; [reflexivity|]. split; [reflexivity|].
    split; [intros i Hi; lia|]. rewrite Z.add_0_r, Hc.
    split; [reflexivity|]. apply last_snoc.
Qed.

(** The run of the command when DATABASE_URL is set to a URL that can be
    split and whose port can be read. *)
Lemma handle_runs (env : Environment) (url : string) (p : ParseResult)
    (number : option Z) :
  environ env !! "DATABASE_URL" = Some url ->
  urlparse env url = parsed p ->
  port p = port_value number ->
  exists n r st,
    0 <= n <= 29 /\
    handle env = Some (r, st) /\
    connects st
    = replicate (Z.to_nat (n + 1))
        {| dbname := tail_of (path p);
           user := username p;
           pass := password p;
           host := hostname p;
           host_port := number;
           connect_timeout := 5 |} /\
    slept st = map backoff (seqZ 1 n) /\
    (forall i args, 1 <= i <= n -> args ∈ connects st ->
                    is_Some (connect env args i)) /\
    forall args, args ∈ connects st ->
      match connect env args (1 + n) with
      | None =>
          r = returned /\
          last (out st)
          = Some (SUCCESS, "Database is ready and accepting connections.")
      | Some e =>
          n = 29 /\ r = raised (OperationalError e) /\
          last (out st) = Some (ERROR, "Max attempts reached. Exiting.")
      end.
Proof.
  intros Hurl Hparse Hport. unfold handle. rewrite Hurl, Hparse, Hport.
  set (args := {| dbname := _ |}). set (st0 := write PLAIN (_ +:+ _) _).
  destruct (retry_runs env args (Z.to_nat max_attempts) 1 st0)
    as (n & r & st & Hn & Hle & Hrun & Hcon & Hslept & Hfail & Hend);
    [reflexivity | lia | unfold max_attempts; lia |].
  exists n, r, st. split; [lia|]. split; [exact Hrun|].
  simpl in Hcon, Hslept. split; [exact Hcon|]. split; [exact Hslept|].
  rewrite Hcon. split.
  - intros i a Hi Ha. apply elem_of_replicate in Ha as [-> _]. apply Hfail. lia.
  - intros a Ha. apply elem_of_replicate in Ha as [-> _].
    destruct (connect env args (1 + n)); [|exact Hend].
    destruct Hend as (H30 & Hr & Hl). split; [lia|]. by split.
Qed.

End wait_for_db_loop.

Section wait_for_db_command.
Import documents wait_for_db.



(** X10. With DATABASE_URL set to a URL that can be split and whose port
    can be read: if the server refuses the attempts before the k-th and
    accepts the k-th, for some k up to 30, the command returns after
    exactly k connections, having slept min(2^i, 10) seconds after each
    failed attempt i, and its last line reports success. *)
Theorem wait_for_db_first_success (env : Environment) (url : string)
    (p : ParseResult) (number : option Z) (k : Z) :
  environ env !! "DATABASE_URL" = Some url ->
  urlparse env url = parsed p ->
  port p = port_value number ->
  1 <= k <= 30 ->
  (forall args i, 1 <= i < k -> is_Some (connect env args i)) ->
  (forall args, connect env args k = None) ->
  exists st,
    handle env = Some (returned, st) /\
    length (connects st) = Z.to_nat k /\
    slept st = map backoff (seqZ 1 (k - 1)) /\
    last (out st)
    = Some (SUCCESS, "Database is ready and accepting connections.").
Proof.
  intros Hurl Hparse Hport Hk Hfail Hok.
  destruct (handle_runs env url p number Hurl Hparse Hport)
    as (n & r & st & Hn & Hrun & Hcon & Hslept & Hbefore & Hend).
  set (args := {| dbname := _ |}) in *.
  assert (Hin : args ∈ connects st).
  { rewrite Hcon. apply elem_of_replicate. split; [reflexivity | lia]. }
  specialize (Hend args Hin).
  assert (Hnk : 1 + n = k).
  { destruct (Z.lt_trichotomy (1 + n) k) as [Hlt|[Heq|Hgt]]; [|exact Heq|].
    - destruct (Hfail args (1 + n) ltac:(lia)) as [e He].
      rewrite He in Hend. lia.
    - destruct (Hbefore k args ltac:(lia) Hin) as [e He].
      by rewrite Hok in He. }
  rewrite Hnk, Hok in Hend. destruct Hend as [-> Hlast].
  exists st. split; [exact Hrun|].
  rewrite Hcon, Hslept, length_replicate.
  split; [f_equal; lia|]. split; [f_equal; f_equal; lia | exact Hlast].
Qed.

(** X11. With DATABASE_URL set to a URL that can be split and whose port
    can be read: if the server refuses all of the first 30 attempts, the
    command raises the exception of the 30th attempt after exactly 30
    connections and 29 sleeps of 2, 4, 8 and then 10 seconds, 274 seconds
    in all; its last line says that the attempts are exhausted, and it
    does not sleep after the last attempt. *)
Theorem wait_for_db_gives_up (env : Environment) (url : string)
    (p : ParseResult) (number : option Z) :
  environ env !! "DATABASE_URL" = Some url ->
  urlparse env url = parsed p ->
  port p = port_value number ->
  (forall args i, 1 <= i <= 30 -> is_Some (connect env args i)) ->
  exists e st,
    handle env = Some (raised (OperationalError e), st) /\
    (forall args, args ∈ connects st -> connect env args 30 = Some e) /\
    length (connects st) = 30%nat /\
    slept st = ([2; 4; 8] ++ replicate 26 10)%list /\
    foldr Z.add 0 (slept st) = 274 /\
    last (out st) = Some (ERROR, "Max attempts reached. Exiting.").
Proof.
  intros Hurl Hparse Hport Hfail.
  destruct (handle_runs env url p number Hurl Hparse Hport)
    as (n & r & st & Hn & Hrun & Hcon & Hslept & _ & Hend).
  set (args := {| dbname := _ |}) in *.
  assert (Hin : args ∈ connects st).
  { rewrite Hcon. apply elem_of_replicate. split; [reflexivity | lia]. }
  pose proof (Hend args Hin) as Hargs.
  destruct (Hfail args (1 + n) ltac:(lia)) as [e He].
  rewrite He in Hargs. destruct Hargs as (-> & -> & Hlast).
  exists e, st. split; [exact Hrun|]. split.
  - intros a Ha. rewrite Hcon in Ha. by apply elem_of_replicate in Ha as [-> _].
  - rewrite Hcon, Hslept. by repeat split.
Qed.

(** X25. A DATABASE_URL that cannot be read ends the command before any
    connection: when the URL cannot be split, ValueError is raised with
    nothing written; when its port is not a number, ValueError is raised
    after the first line only.  In both cases the command neither
    connects nor sleeps. *)
Theorem wait_for_db_malformed_url (env : Environment) (url : string) :
  environ env !! "DATABASE_URL" = Some url ->
  (forall message, urlparse env url = parse_error message ->
     handle env = Some (raised (ValueError message), start)) /\
  (forall p message,
     urlparse env url = parsed p -> port p = port_invalid message ->
     exists st,
       handle env = Some (raised (ValueError message), st) /\
       out st = [(PLAIN, "Waiting for database to be ready...")] /\
       connects st = [] /\ slept st = []).
Proof.
  intros Hurl. split.
  - intros message Hparse. unfold handle. by rewrite Hurl, Hparse.
  - intros p message Hparse Hport. unfold handle.
    rewrite Hurl, Hparse, Hport. eexists. by split.
Qed.

End wait_for_db_command.

Section wait_for_db_runs.
Import documents wait_for_db fixtures.

(** A server that accepts the fourth attempt: sleeps of 2, 4 and 8. *)
Lemma wait_for_db_first_success_witness :
  exists st,
    handle (server_up_from 4) = Some (returned, st) /\
    length (connects st) = 4%nat /\ slept st = [2; 4; 8].
Proof.
  destruct (wait_for_db_first_success (server_up_from 4)
              "postgres://shop:secret@db:5432/catalog" parsed_url (Some 5432) 4)
    as (st & Hrun & Hlen & Hslept & _).
  - reflexivity.
  - reflexivity.
  - reflexivity.
  - lia.
  - intros args i Hi. simpl. rewrite bool_decide_eq_true_2 by lia. by eexists.
  - intros args. reflexivity.
  - exists st. by repeat split.
Defined.

(** A server that never accepts. *)
Lemma wait_for_db_gives_up_witness :
  exists st,
    handle server_down
    = Some (raised (OperationalError "connection refused"), st) /\
    length (connects st) = 30%nat /\ foldr Z.add 0 (slept st) = 274.
Proof.
  destruct (wait_for_db_gives_up server_down
              "postgres://shop:secret@db:5432/catalog" parsed_url (Some 5432))
    as (e & st & Hrun & He & Hlen & _ & Hsum & _).
  - reflexivity.
  - reflexivity.
  - reflexivity.
  - intros args i Hi. by eexists.
  - assert (Hne : exists a, a ∈ connects st).
    { destruct (connects st) as [|a l]; [discriminate|]. exists a. left. }
    destruct Hne as [a Ha]. specialize (He a Ha). injection He as <-.
    exists st. by repeat split.
Defined.

(** The port abc: ValueError, no connection. *)
Lemma wait_for_db_malformed_url_witness :
  exists st,
    handle bad_port
    = Some (raised (ValueError
                      "Port could not be cast to integer value as 'abc'"), st) /\
    connects st = [] /\ slept st = [].
Proof.
  destruct (proj2 (wait_for_db_malformed_url bad_port
                     "postgres://shop:secret@db:abc/catalog" eq_refl)
              _ _ eq_refl eq_refl)
    as (st & Hrun & _ & Hc & Hs).
  by exists st.
Defined.


End wait_for_db_runs.

Section suggest_endpoint.
Import suggest_view.

(** X7. The live suggest view with valid parameters and an answering
    engine: the engine is asked to complete a non-empty text on the
    field suggest with a bound of 1 to 10 options; the options of the
    response are the texts of the first entry listed under
    product-suggest, in the engine's order and with its duplicates, and
    later entries are not read; without such a suggester in the answer
    the options are empty; an empty entry list ends in IndexError.  The
    response echoes the text and the size that were asked. *)
Theorem suggest_options_of_first_entry `{SuggestBackend} (data : SuggestQuery)
    (res : gmap string (list SuggestEntry)) :
  valid data ->
  execute_suggest (suggest_request data) = Return res ->
  (completion_field (suggest_request data) = "suggest" /\
   suggest_text (suggest_request data) <> EmptyString /\
   1 <= completion_size (suggest_request data) <= 10) /\
  (res !! "product-suggest" = None ->
     get false (Return data) = responds (response_200 (q data) [] (size data))) /\
  (forall first others, res !! "product-suggest" = Some (first :: others) ->
     get false (Return data)
     = responds (response_200 (q data) (map text (options first)) (size data))) /\
  (res !! "product-suggest" = Some [] ->
     get false (Return data) = raises_IndexError).
Proof.
  intros [Hq Hsize] Hex. unfold get. rewrite Hex.
  split; [split; [reflexivity|]; split; [exact Hq | exact Hsize]|].
  repeat split.
  - by intros ->.
  - by intros first others ->.
  - by intros ->.
Qed.

(** X8. What the suggest view does without an engine answer.  In test
    mode the engine is not consulted: the answer is the same for every
    backend, a 400 response for invalid parameters and otherwise the
    echoed text and size with no options.  In live mode invalid
    parameters end in the serializer's exception, again for every
    backend, and an exception of the engine is the view's exception. *)
Theorem suggest_without_engine_answer (B1 B2 : SuggestBackend)
    (params : outcome SuggestQuery) (data : SuggestQuery) (e : Exception) :
  @get B1 true params = @get B2 true params /\
  @get B1 true (Raise e) = responds (response_400 e) /\
  @get B1 true (Return data) = responds (response_200 (q data) [] (size data)) /\
  @get B1 false (Raise e) = raises e /\
  (@execute_suggest B1 (suggest_request data) = Raise e ->
   @get B1 false (Return data) = raises e).
Proof.
  repeat split. intros Hex. unfold get. by rewrite Hex.
Qed.

End suggest_endpoint.

Section search_endpoint.
Import serializers documents views.
Context `{PyFloat}.

(** X12. What the search view does without an engine answer.  In test
    mode the engine is not consulted: for every backend the answer is
    the stub with count 0, no results, no next page and the requested
    page and page size.  In live mode an exception of the engine is the
    view's exception; it is not turned into an empty result. *)
Theorem search_without_engine_answer (B1 B2 : SearchBackend)
    (data : SearchQuery) (e : Exception) :
  @get _ B1 true data = @get _ B2 true data /\
  (exists p, @get _ B1 true data = Return p /\
             count p = 0 /\ results p = [] /\ has_next p = false /\
             resp_page p = page data /\ resp_page_size p = page_size data) /\
  (@execute _ B1 (build_search data) = Raise e ->
   @get _ B1 false data = Raise e).
Proof.
  split; [reflexivity|]. split.
  - eexists. split; [reflexivity|]. by repeat split.
  - intros Hex. unfold get. by rewrite Hex.
Qed.

(** X13. Pages of a valid query tile the matches: the window is never
    negative, holds page_size places with page_size between 1 and the
    configured maximum, and the next page starts where this one ends.
    When a response says has_next, the next page starts below the
    reported total; a response to the next page always says has_prev,
    and a response to page 1 never does. *)
Theorem pages_tile `{!SearchBackend} (cfg : Settings) (test_mode : bool)
    (data : SearchQuery) :
  valid cfg data ->
  0 <= window_start data /\
  1 <= page_size data <= MAX_PAGE_SIZE cfg /\
  window_start {| q := q data; category := category data;
                  price_min := price_min data; price_max := price_max data;
                  sort := sort data; page := page data + 1;
                  page_size := page_size data |}
  = window_start data + page_size data /\
  (forall p, get test_mode data = Return p -> has_next p = true ->
     window_start data + page_size data < count p) /\
  (forall p, get test_mode
               {| q := q data; category := category data;
                  price_min := price_min data; price_max := price_max data;
                  sort := sort data; page := page data + 1;
                  page_size := page_size data |} = Return p ->
     has_prev p = true) /\
  (page data = 1 -> forall p, get test_mode data = Return p -> has_prev p = false).
Proof.
  intros [_ Hpage Hsize _ _ _]. unfold window_start. simpl.
  split; [nia|]. split; [exact Hsize|]. split; [ring|].
  split; [|split].
  - intros p Hget Hnext. unfold get in Hget. destruct test_mode.
    + injection Hget as <-. discriminate.
    + destruct (execute (build_search data)); [|discriminate].
      injection Hget as <-. simpl in Hnext.
      by apply bool_decide_eq_true in Hnext.
  - intros p Hget. unfold get in Hget. simpl in Hget. destruct test_mode.
    + injection Hget as <-. simpl. apply bool_decide_eq_true. lia.
    + destruct (execute _); [|discriminate]. injection Hget as <-. simpl.
      apply bool_decide_eq_true. nia.
  - intros H1 p Hget. unfold get in Hget. rewrite H1 in Hget.
    destruct test_mode.
    + injection Hget as <-. simpl.
      first [reflexivity | apply bool_decide_eq_false; lia].
    + destruct (execute _); [|discriminate]. injection Hget as <-. simpl.
      first [reflexivity | apply bool_decide_eq_false; lia].
Qed.

End search_endpoint.

Section search_endpoint_runs.
Import serializers documents views fixtures.

(** Page 2 of size 5 over twelve matches: page 3 starts at 10, below 12. *)
Lemma pages_tile_witness :
  valid settings page_two /\
  exists p, get false page_two = Return p /\ has_next p = true /\
            window_start page_two + page_size page_two < count p.
Proof.
  split; [exact page_two_valid|].
  destruct (pages_tile settings false page_two page_two_valid)
    as (_ & _ & _ & Hnext & _).
  eexists. split; [reflexivity|]. split; [reflexivity|].
  by apply Hnext.
Defined.

End search_endpoint_runs.

Section synchronizer_round_trips.
Import documents models.
Context `{PyFloat}.

Lemma Product_delete_live (p : Product.t) (w : World) :
  Product_delete false p w
  = delete_product false p
      (set_db {| categories := categories (db w);
                 products := filter (fun r => Product.id r <> Product.id p)
                               (products (db w)) |} w).
Proof.
  unfold Product_delete, send, post_delete_Product, for_each, bind.
  match goal with
  | |- context [delete_product false p ?x] =>
      destruct (delete_product false p x) as [[[]|e] w']
  end; reflexivity.
Qed.

Lemma put_product_other (p r : Product.t) (rows : list Product.t) :
  Product.id r <> Product.id p -> r ∈ put_product p rows <-> r ∈ rows.
Proof.
  intros Hne. unfold put_product. destruct (existsb _ rows).
  - rewrite list_elem_of_fmap. split.
    + intros (x & Hx & Hin). case_bool_decide; subst; done.
    + intros Hin. exists r. by rewrite bool_decide_eq_false_2.
  - rewrite elem_of_app, list_elem_of_singleton. split; [|by left].
    intros [Hin | ->]; done.
Qed.

(** The live upsert of an accepted product, as a change of the world. *)
Lemma index_product_accepted (p : Product.t) (doc : ProductDocument) (w : World) :
  reachable (es w) = true -> prepared (db w) p = Some doc ->
  Product.id p ∉ rejected (es w) ->
  index_product false p w
  = (Return tt,
     set_es (set_index (Some (<[Product.id p := doc]>
                                (default ∅ (products_index (es w))))) (es w)) w).
Proof.
  intros Hr Hdoc Hok. pose proof (prepare_doc_id _ _ _ Hdoc) as Hid.
  unfold index_product, registry_update, registry_update_related, bind.
  rewrite (update_accepted p doc w Hr Hdoc) by (by rewrite Hid).
  simpl. by rewrite Hid.
Qed.

(** X14. Save and delete round trip of a product that can be projected
    (its category is stored and it has an image).  With the cluster
    answering and accepting it, saving it puts its document into the index
    and deleting it afterwards takes the document out again: the index
    then has nothing under the product's id, every other id has what it
    had before the save, the store has no row with the product's id and
    keeps every other row. *)
Theorem save_then_delete_round_trip (p : Product.t) (w : World) :
  reachable (es w) = true ->
  is_Some (prepared (db w) p) ->
  Product.id p ∉ rejected (es w) ->
  exists w1 w2,
    Product_save false p w = (Return tt, w1) /\
    indexed w1 (Product.id p) = prepared (db w) p /\
    Product_delete false p w1 = (Return tt, w2) /\
    indexed w2 (Product.id p) = None /\
    (forall id, id <> Product.id p -> indexed w2 id = indexed w id) /\
    (forall r, r ∈ products (db w2) -> Product.id r <> Product.id p) /\
    (forall r, Product.id r <> Product.id p ->
       r ∈ products (db w2) <-> r ∈ products (db w)).
Proof.
  intros Hr [doc Hdoc] Hok.
  rewrite Product_save_live. set (w0 := set_db _ w).
  rewrite (index_product_accepted p doc w0 Hr Hdoc Hok).
  set (w1 := set_es _ w0). exists w1.
  assert (Hin1 : indexed w1 (Product.id p) = Some doc)
    by (unfold indexed; simpl; apply lookup_insert_eq).
  rewrite Product_delete_live. set (w1' := set_db _ w1).
  rewrite (delete_product_live p w1' Hr).
  change (indexed w1' (Product.id p)) with (indexed w1 (Product.id p)).
  rewrite Hin1. eexists. split; [reflexivity|]. split; [by rewrite Hdoc|].
  split; [reflexivity|]. unfold indexed. simpl. split; [apply lookup_delete_eq|].
  split; [|split].
  - intros id Hne. rewrite lookup_delete_ne, lookup_insert_ne by done.
    destruct (products_index (es w)); [reflexivity | apply lookup_empty].
  - intros r Hin. by apply list_elem_of_filter in Hin as [Hne _].
  - intros r Hne. rewrite list_elem_of_filter. rewrite put_product_other by done.
    tauto.
Qed.

(** X15. Running the receiver a second time changes nothing: the upsert
    of a product that can be projected (its category is stored and it has
    an image) and that the cluster accepts is idempotent. *)
Theorem index_product_idempotent (p : Product.t) (w : World) :
  reachable (es w) = true ->
  is_Some (prepared (db w) p) ->
  Product.id p ∉ rejected (es w) ->
  exists w1,
    index_product false p w = (Return tt, w1) /\
    index_product false p w1 = (Return tt, w1).
Proof.
  intros Hr [doc Hdoc] Hok.
  rewrite (index_product_accepted p doc w Hr Hdoc Hok).
  eexists. split; [reflexivity|].
  rewrite (index_product_accepted p doc); [|exact Hr|exact Hdoc|exact Hok].
  simpl. by rewrite insert_insert_eq.
Qed.

(** X16. Test mode leaves the engine alone in every world, reachable or
    not: the document methods return without effect, no receiver is
    connected, and saving or deleting a product or saving a category
    changes only the store. *)
Theorem test_mode_leaves_engine_alone (p : Product.t) (c : Category.t)
    (action : BulkOp) (raise_on_error : bool)
    (super_delete : ProductDocument -> M unit) (doc : ProductDocument)
    (w : World) :
  update true p action raise_on_error w = (Return tt, w) /\
  ProductDocument_delete true super_delete doc w = (Return tt, w) /\
  (exists w', Product_save true p w = (Return tt, w') /\
              es w' = es w /\ stdout w' = stdout w /\ p ∈ products (db w')) /\
  (exists w', Product_delete true p w = (Return tt, w') /\
              es w' = es w /\ stdout w' = stdout w /\
              forall r, r ∈ products (db w') -> Product.id r <> Product.id p) /\
  (exists w', Category_save true c w = (Return tt, w') /\
              es w' = es w /\ stdout w' = stdout w /\
              products (db w') = products (db w)).
Proof.
  split; [reflexivity|]. split; [reflexivity|]. split; [|split].
  - eexists. split; [reflexivity|]. repeat split. apply put_product_in.
  - eexists. split; [reflexivity|]. repeat split.
    intros r Hin. by apply list_elem_of_filter in Hin as [Hne _].
  - eexists. split; [reflexivity|]. by repeat split.
Qed.

End synchronizer_round_trips.

Section rebuild_more.
Import documents populate_es.
Context `{PyFloat}.

(** The live rebuild on a cluster that answers, as a change of the world. *)
Lemma handle_live (w : World) :
  reachable (es w) = true ->
  exists w',
    handle false w = (Return tt, w') /\
    db w' = db w /\
    reachable (es w') = true /\
    rejected (es w') = rejected (es w) /\
    products_index (es w')
    = upserted (omap (prepared (db w))
                  (filter (fun p => indexable w p = true) (products (db w))))
        (Some ∅).
Proof.
  intros Hr. unfold handle, bind, write, Product_all.
  rewrite Index_delete_missing_ok by exact Hr.
  rewrite Index_create_fresh by (simpl; done).
  set (w0 := say PLAIN "Indexing products in Elasticsearch..." _).
  assert (Hr0 : reachable (es w0) = true) by exact Hr.
  destruct (index_products_spec (products (db w)) 0 w0 Hr0)
    as (w1 & log & Hrun & Hdb & Hre & Hrej & Hix & _).
  change (db (say PLAIN "Fetching products from database..." _))
    with (db w).
  rewrite Hrun.
  destruct (bool_decide _); eexists; (split; [reflexivity|]); simpl;
    by rewrite Hdb, Hre, Hrej, Hix.
Qed.

Lemma upserted_lookup_from (docs : list ProductDocument) (k : Z)
    (doc : ProductDocument) :
  upserted docs (Some ∅) ≫= (fun m => m !! k) = Some doc -> doc ∈ docs.
Proof.
  intros Hl. destruct (decide (k ∈ map doc_id docs)) as [Hin|Hout].
  - destruct (upserted_lookup_in docs (Some ∅) k Hin) as (d & Hd & _ & Hl').
    rewrite Hl in Hl'. by injection Hl' as ->.
  - rewrite upserted_lookup_other in Hl by exact Hout. simpl in Hl.
    by rewrite lookup_empty in Hl.
Qed.

(** X17. What a live rebuild leaves in the index, the cluster answering:
    exactly the products of the store that could be indexed, which are
    those with a stored category and an image that the cluster does not
    refuse.  An id has a document afterwards if and only if an indexable
    product has that id, and every document is the projection of a stored
    product that has an image; so documents of products that are no
    longer stored are gone, and a product without image leaves no
    document.  The store itself is not changed. *)
Theorem rebuild_index_holds_exactly_the_store (w : World) :
  reachable (es w) = true ->
  exists w',
    handle false w = (Return tt, w') /\
    db w' = db w /\
    (forall id, is_Some (indexed w' id) <->
       exists p, p ∈ products (db w) /\ indexable w p = true /\
                 Product.id p = id) /\
    (forall id doc, indexed w' id = Some doc ->
       doc_id doc = id /\
       exists p, p ∈ products (db w) /\ prepared (db w) p = Some doc /\
                 is_Some (Product.image p) /\
                 doc_image doc = Product.image p).
Proof.
  intros Hr. destruct (handle_live w Hr) as (w' & Hrun & Hdb & _ & _ & Hix).
  exists w'. split; [exact Hrun|]. split; [exact Hdb|].
  set (docs := omap (prepared (db w)) _) in Hix.
  assert (Hfrom : forall id doc, indexed w' id = Some doc ->
            doc_id doc = id /\
            exists p, p ∈ products (db w) /\ indexable w p = true /\
                      prepared (db w) p = Some doc).
  { intros id doc Hl. unfold indexed in Hl. rewrite Hix in Hl.
    pose proof (upserted_lookup_from docs id doc Hl) as Hd.
    apply list_elem_of_omap in Hd as (p & Hp & Hdoc).
    apply list_elem_of_filter in Hp as [Hind Hp]. split; [|by exists p].
    destruct (decide (id ∈ map doc_id docs)) as [Hin|Hout].
    - destruct (upserted_lookup_in docs (Some ∅) id Hin) as (d & _ & Hid & Hl').
      rewrite Hl in Hl'. by injection Hl' as ->.
    - rewrite upserted_lookup_other in Hl by exact Hout. simpl in Hl.
      by rewrite lookup_empty in Hl. }
  split.
  - intros id. split.
    + intros [doc Hl]. destruct (Hfrom id doc Hl) as (Hid & p & Hp & Hind & Hdoc).
      exists p. split; [exact Hp|]. split; [exact Hind|].
      by rewrite <- (prepare_doc_id _ _ _ Hdoc).
    + intros (p & Hp & Hind & <-).
      destruct (indexable_prepare w p Hind) as (doc & Hdoc & _).
      assert (Hk : Product.id p ∈ map doc_id docs).
      { apply list_elem_of_fmap. exists doc.
        split; [symmetry; by apply (prepare_doc_id (db w)) |].
        apply list_elem_of_omap. exists p. split; [|exact Hdoc].
        by apply list_elem_of_filter. }
      destruct (upserted_lookup_in docs (Some ∅) _ Hk) as (d & _ & _ & Hl).
      exists d. unfold indexed. by rewrite Hix.
  - intros id doc Hl. destruct (Hfrom id doc Hl) as (Hid & p & Hp & _ & Hdoc).
    split; [exact Hid|]. exists p. split; [exact Hp|]. split; [exact Hdoc|].
    by destruct (prepared_image _ _ _ Hdoc).
Qed.

(** X18. A second live rebuild right after the first gives the same
    index: the rebuild is idempotent. *)
Theorem rebuild_idempotent (w : World) :
  reachable (es w) = true ->
  exists w1 w2,
    handle false w = (Return tt, w1) /\
    handle false w1 = (Return tt, w2) /\
    products_index (es w2) = products_index (es w1) /\
    db w2 = db w1.
Proof.
  intros Hr.
  destruct (handle_live w Hr) as (w1 & Hrun1 & Hdb1 & Hr1 & Hrej1 & Hix1).
  destruct (handle_live w1 Hr1) as (w2 & Hrun2 & Hdb2 & _ & _ & Hix2).
  exists w1, w2. split; [exact Hrun1|]. split; [exact Hrun2|].
  split; [|exact Hdb2]. rewrite Hix2, Hix1, Hdb1. do 2 f_equal.
  apply list_filter_iff. intros p.
  by rewrite (indexable_ext w1 w p Hdb1 Hrej1).
Qed.

(** X19. Against a cluster that does not answer the rebuild raises the
    connection error at its first step, in test mode as well: only the
    first line has been written and neither the index nor the store has
    been touched. *)
Theorem rebuild_unreachable (test_mode : bool) (w : World) :
  reachable (es w) = false ->
  handle test_mode w
  = (Raise ConnectionError,
     say PLAIN "Deleting existing Elasticsearch index..." w).
Proof.
  intros Hr. unfold handle, bind, write, Index_delete. simpl. by rewrite Hr.
Qed.

Lemma index_products_test_mode (todo : list Product.t) (n : Z) (w : World) :
  exists w' log,
    index_products true todo n w = (Return (n + count_ todo), w') /\
    db w' = db w /\ es w' = es w /\
    stdout w' = (stdout w ++ log)%list /\
    Forall (fun l => l.1 = PLAIN) log.
Proof.
  revert n w. induction todo as [|p todo IH]; intros n w.
  - exists w, []. unfold count_. simpl. unfold ret.
    by rewrite Z.add_0_r, app_nil_r.
  - cbn [index_products]. unfold bind, try_except, update, ret.
    set (w1 := if bool_decide ((n + 1) `mod` 100 = 0)
               then say PLAIN (progress_line (n + 1)) w else w).
    assert (Hw1 : db w1 = db w /\ es w1 = es w /\
              exists l1, stdout w1 = (stdout w ++ l1)%list /\
                         Forall (fun l => l.1 = PLAIN) l1).
    { unfold w1. destruct (bool_decide _); simpl.
      - repeat split. eexists. split; [reflexivity|]. by apply Forall_singleton.
      - repeat split. exists []. by rewrite app_nil_r. }
    destruct Hw1 as (Hdb1 & Hes1 & l1 & Hout1 & Hl1).
    destruct (IH (n + 1) w1) as (w' & log & Hrun & Hdb & Hes & Hout & Hlog).
    exists w', (l1 ++ log)%list.
    assert (Hstep : (let (o, w'0) :=
                       (if bool_decide ((n + 1) `mod` 100 = 0)
                        then write PLAIN (progress_line (n + 1))
                        else fun w0 => (Return tt, w0)) w in
                     match o with
                     | Return _ => (Return (n + 1), w'0)
                     | Raise e => (Raise e, w'0)
                     end) = (Return (n + 1), w1)).
    { unfold w1, write. by destruct (bool_decide _). }
    rewrite Hstep, Hrun. split.
    + f_equal. f_equal. unfold count_. simpl length. lia.
    + split; [by rewrite Hdb|]. split; [by rewrite Hes|].
      split; [by rewrite Hout, Hout1, app_assoc|]. by apply Forall_app.
Qed.

(** X20. A rebuild run in test mode, the cluster answering: the index is
    dropped and created anew but no document is sent, so the index ends
    up empty, while the report counts every product of the store as
    indexed and mentions no failure. *)
Theorem rebuild_in_test_mode_indexes_nothing (w : World) :
  reachable (es w) = true ->
  exists w' log,
    handle true w = (Return tt, w') /\
    products_index (es w') = Some ∅ /\
    Forall (fun l => l.1 = PLAIN) log /\
    stdout w'
    = (stdout w ++ preamble (count_ (products (db w))) ++ log
       ++ [(SUCCESS, success_line (count_ (products (db w))))])%list.
Proof.
  intros Hr. unfold handle, bind, write, Product_all.
  rewrite Index_delete_missing_ok by exact Hr.
  rewrite Index_create_fresh by (simpl; done).
  set (w0 := say PLAIN "Indexing products in Elasticsearch..." _).
  destruct (index_products_test_mode (products (db w)) 0 w0)
    as (w1 & log & Hrun & Hdb & Hes & Hout & Hlog).
  change (db (say PLAIN "Fetching products from database..." _))
    with (db w).
  rewrite Hrun, Z.add_0_l.
  rewrite bool_decide_eq_false_2 by lia.
  eexists _, log. split; [reflexivity|]. simpl. rewrite Hes, Hout. simpl.
  split; [reflexivity|]. split; [exact Hlog|].
  by rewrite <- !app_assoc.
Qed.

End rebuild_more.

Section products_without_image.
Import documents models populate_es.
Context `{PyFloat}.

(** X23. A product without image cannot be saved in live mode: the
    preparation of its document raises ValueError, the receiver does not
    catch it, and [save()] raises it after the row was written and before
    anything was sent, whether the cluster answers or not.  In test mode
    the same save returns. *)
Theorem product_without_image_save_raises (p : Product.t) (w : World) :
  Product.image p = None ->
  (exists row, row ∈ categories (db w) /\ Category.id row = Product.category p) ->
  (exists w',
     Product_save false p w = (Raise no_file_error, w') /\
     p ∈ products (db w') /\ es w' = es w /\ stdout w' = stdout w) /\
  (Product_save true p w).1 = Return tt.
Proof.
  intros Himg Hrow. split; [|reflexivity].
  rewrite Product_save_live. set (w1 := set_db _ w).
  exists w1. split; [|split; [apply put_product_in | by split]].
  apply index_product_raises, update_unprepared.
  by apply prepare_without_image.
Qed.

(** X24. A live rebuild of a store in which no product has an image,
    the cluster answering: the rebuild returns, the new index stays
    empty, every product gets an error line, and the report states 0
    indexed products and all of them as failed. *)
Theorem rebuild_without_images_indexes_nothing (w : World) :
  reachable (es w) = true ->
  products (db w) <> [] ->
  Forall (fun p => Product.image p = None) (products (db w)) ->
  exists w' log,
    handle false w = (Return tt, w') /\
    products_index (es w') = Some ∅ /\
    (forall p, p ∈ products (db w) -> exists e, (ERROR, error_line p e) ∈ log) /\
    stdout w'
    = (stdout w ++ preamble (count_ (products (db w))) ++ log
       ++ [(SUCCESS, success_line 0);
           (WARNING, failed_line (count_ (products (db w))))])%list.
Proof.
  intros Hr Hrows Hnone. unfold handle, bind, write, Product_all.
  rewrite Index_delete_missing_ok by exact Hr.
  rewrite Index_create_fresh by (simpl; done).
  set (w0 := say PLAIN "Indexing products in Elasticsearch..." _).
  assert (Hr0 : reachable (es w0) = true) by exact Hr.
  assert (Hbad : forall q, q ∈ products (db w) -> indexable w0 q = false).
  { intros q Hq. rewrite Forall_forall in Hnone. unfold indexable.
    by rewrite prepared_without_image by (by apply Hnone). }
  assert (Hfil : filter (fun q => indexable w0 q = true) (products (db w)) = []).
  { clear -Hbad. induction (products (db w)) as [|q rows IH]; [reflexivity|].
    rewrite filter_cons_False by (rewrite Hbad; [discriminate | left]).
    apply IH. intros r Hin. apply Hbad. by right. }
  destruct (index_products_spec (products (db w)) 0 w0 Hr0)
    as (w1 & log & Hrun & Hdb & Hre & Hrej & Hix & Hout & Hlog & Herr).
  change (db (say PLAIN "Fetching products from database..." _))
    with (db w).
  rewrite Hfil in Hrun, Hix. rewrite Hrun. change (0 + count_ []) with 0.
  assert (Hpos : 0 < count_ (products (db w))).
  { unfold count_. destruct (products (db w)); [done | simpl; lia]. }
  rewrite bool_decide_eq_true_2 by exact Hpos.
  eexists _, log. split; [reflexivity|]. simpl. rewrite Hix, Hout. simpl.
  split; [reflexivity|]. split.
  - intros q Hq. apply (Herr q Hq). by apply Hbad.
  - rewrite Z.sub_0_r. by rewrite <- !app_assoc.
Qed.

End products_without_image.

Section further_runs.
Import serializers documents views models populate_es fixtures.

(** The parameter 1,abc,3 is refused because of its part abc. *)
Lemma validate_category_refuses_exactly_bad_parts_witness :
  validate_category (Some "1,abc,3")
  = Raise (ValidationError "category"
             "category must be a comma-separated list of integers").
Proof.
  apply (proj2 (proj2 (validate_category_refuses_exactly_bad_parts "1,abc,3"))).
  exists "abc", (ValueError "invalid literal for int() with base 10").
  split; [right; left|]. split; [discriminate | reflexivity].
Defined.

(** Phones is stored, a category with id 3 is not; 299.99 is a price. *)
Lemma product_validators_accept_witness :
  ProductSerializer_validate_category store phones = Return phones /\
  ProductSerializer_validate_category store tablets
  = Raise missing_category_error /\
  validate_price 29999 = Return 29999.
Proof.
  split; [|split].
  - apply (proj1 (product_validators_accept store phones 29999)).
    exists phones. split; [left | reflexivity].
  - destruct (proj1 (proj2 (product_validators_accept store tablets 29999)))
      as [Hacc|Hrej]; [|exact Hrej].
    apply (proj1 (product_validators_accept store tablets 29999)) in Hacc
      as (row & Hrow & Hid).
    apply elem_of_cons in Hrow as [->|Hrow]; [discriminate|].
    apply elem_of_cons in Hrow as [->|Hrow]; [discriminate|].
    by apply elem_of_nil in Hrow.
  - apply (proj1 (proj2 (proj2 (product_validators_accept store phones 29999)))).
    lia.
Defined.

(** Product 5 of category Phones, with its picture, saved on the healthy
    cluster. *)
Lemma validated_product_is_indexed_witness :
  exists w' doc,
    Product_save false (phone 5) healthy = (Return tt, w') /\
    indexed w' 5 = Some doc /\ doc_category_id doc = 1 /\
    doc_image doc = Some "/media/products/phone.jpg" /\
    doc_price doc = 29999.
Proof.
  destruct (validated_product_is_indexed phones (phone 5)
              "/media/products/phone.jpg" healthy)
    as (_ & w' & doc & Hrun & _ & Hdoc & _ & Hcat & Himage & Hprice).
  - reflexivity.
  - reflexivity.
  - reflexivity.
  - reflexivity.
  - reflexivity.
  - apply not_elem_of_empty.
  - exists w', doc. by repeat split.
Defined.

(** Adding Tablets to a store with Phones and Laptops. *)
Lemma validated_category_write_keeps_names_unique_witness :
  NoDup (map Category.name (put_category tablets (categories store))) /\
  tablets ∈ put_category tablets (categories store).
Proof.
  destruct (validated_category_write_keeps_names_unique
              {| instance := None |} store tablets) as (_ & Hnames & Hin).
  - by apply (bool_decide_unpack _).
  - by apply (bool_decide_unpack _).
  - reflexivity.
  - by split.
Defined.

(** Saving and deleting product 5 on the healthy cluster. *)
Lemma save_then_delete_round_trip_witness :
  exists w1 w2,
    Product_save false (phone 5) healthy = (Return tt, w1) /\
    is_Some (indexed w1 5) /\
    Product_delete false (phone 5) w1 = (Return tt, w2) /\
    indexed w2 5 = None.
Proof.
  destruct (save_then_delete_round_trip (phone 5) healthy)
    as (w1 & w2 & Hsave & Hin & Hdel & Hout & _).
  - reflexivity.
  - by eexists.
  - apply not_elem_of_empty.
  - exists w1, w2. split; [exact Hsave|]. split; [|by split].
    change 5 with (Product.id (phone 5)). rewrite Hin. by eexists.
Defined.

Lemma index_product_idempotent_witness :
  exists w1,
    index_product false (phone 1) healthy = (Return tt, w1) /\
    index_product false (phone 1) w1 = (Return tt, w1).
Proof.
  apply (index_product_idempotent (phone 1) healthy);
    [reflexivity | by eexists | apply not_elem_of_empty].
Defined.

(** A rebuild of a store in which product 2 has no image: 1 and 3 are
    indexed, 2 is not. *)
Lemma rebuild_index_holds_exactly_the_store_witness :
  exists w',
    handle false sketchy = (Return tt, w') /\
    is_Some (indexed w' 3) /\ indexed w' 2 = None.
Proof.
  destruct (rebuild_index_holds_exactly_the_store sketchy eq_refl)
    as (w' & Hrun & _ & Hiff & _).
  exists w'. split; [exact Hrun|]. split.
  - apply Hiff. exists (phone 3). split; [|by split].
    do 2 right. left.
  - destruct (indexed w' 2) as [doc|] eqn:Hl; [|reflexivity].
    destruct (proj1 (Hiff 2) (ex_intro _ doc Hl)) as (p & Hp & Hind & Hid).
    repeat (apply elem_of_cons in Hp as [->|Hp]; [discriminate|]).
    by apply elem_of_nil in Hp.
Defined.

Lemma rebuild_idempotent_witness :
  exists w1 w2,
    handle false picky = (Return tt, w1) /\
    handle false w1 = (Return tt, w2) /\
    products_index (es w2) = products_index (es w1).
Proof.
  destruct (rebuild_idempotent picky eq_refl) as (w1 & w2 & H1 & H2 & Hix & _).
  by exists w1, w2.
Defined.

Lemma rebuild_unreachable_witness :
  (handle false offline).1 = Raise ConnectionError /\
  products_index (es (handle false offline).2) = None.
Proof. by rewrite (rebuild_unreachable false offline eq_refl). Defined.

Lemma rebuild_in_test_mode_indexes_nothing_witness :
  exists w',
    handle true healthy = (Return tt, w') /\
    products_index (es w') = Some ∅ /\
    last (stdout w') = Some (SUCCESS, success_line 4).
Proof.
  destruct (rebuild_in_test_mode_indexes_nothing healthy eq_refl)
    as (w' & log & Hrun & Hix & _ & Hout).
  exists w'. split; [exact Hrun|]. split; [exact Hix|].
  rewrite Hout, !app_assoc. apply last_snoc.
Defined.

(** Saving product 7, which has no image, on the healthy cluster. *)
Lemma product_without_image_save_raises_witness :
  exists w',
    Product_save false (sketch 7) healthy = (Raise no_file_error, w') /\
    sketch 7 ∈ products (db w') /\ es w' = es healthy.
Proof.
  assert (Hrow : exists row, row ∈ categories (db healthy) /\
                   Category.id row = Product.category (sketch 7))
    by (exists phones; split; [left | reflexivity]).
  destruct (proj1 (product_without_image_save_raises (sketch 7) healthy
                     eq_refl Hrow))
    as (w' & Hrun & Hin & Hes & _).
  by exists w'.
Defined.

(** A rebuild of two products without image: 0 indexed, 2 failed. *)
Lemma rebuild_without_images_indexes_nothing_witness :
  exists w',
    handle false drafts = (Return tt, w') /\
    products_index (es w') = Some ∅ /\
    states_succeeded (stdout w') 0 /\ states_failed (stdout w') 2.
Proof.
  destruct (rebuild_without_images_indexes_nothing drafts eq_refl)
    as (w' & log & Hrun & Hix & _ & Hout).
  - discriminate.
  - by repeat constructor.
  - exists w'. split; [exact Hrun|]. split; [exact Hix|].
    unfold states_succeeded, states_failed. rewrite Hout.
    change (count_ (products (db drafts))) with 2.
    split; rewrite !elem_of_app; right; right; right; [left | right; left].
Defined.

(** Renaming Phones to Smartphones on the healthy cluster. *)
Lemma category_rename_reaches_documents_witness :
  exists w' doc,
    Category_save false smartphones healthy = (Return tt, w') /\
    indexed w' 4 = Some doc /\ doc_category doc = (1, "Smartphones").
Proof.
  destruct (category_rename_reaches_documents smartphones healthy eq_refl)
    as (w' & Hrun & Hdocs).
  - intros p Hp _. split; [|apply not_elem_of_empty].
    repeat (apply elem_of_cons in Hp as [->|Hp]; [by eexists|]).
    by apply elem_of_nil in Hp.
  - destruct (Hdocs (phone 4)) as (doc & Hdoc & Hcat);
      [do 3 right; left | reflexivity |].
    by exists w', doc.
Defined.

End further_runs.

Section suggest_runs.
Import suggest_view fixtures.

(** Three options for ph, the duplicate kept. *)
Lemma suggest_options_of_first_entry_witness :
  get false (Return suggest_ph)
  = responds (response_200 "ph" ["phone"; "phone case"; "phone"] 3).
Proof.
  assert (Hvalid : valid suggest_ph) by (split; [discriminate | simpl; lia]).
  destruct (@suggest_options_of_first_entry phone_suggestions suggest_ph
              phone_answer Hvalid eq_refl)
    as (_ & _ & Hfirst & _).
  exact (Hfirst {| options := [{| text := "phone" |};
                               {| text := "phone case" |};
                               {| text := "phone" |}] |} [] eq_refl).
Defined.

Lemma suggest_without_engine_answer_witness :
  get true (Return suggest_ph) = responds (response_200 "ph" [] 3).
Proof.
  apply (suggest_without_engine_answer phone_suggestions phone_suggestions
           (Return suggest_ph) suggest_ph DoesNotExist).
Defined.

End suggest_runs.

Section price_range.
Import serializers documents views.
Context `{PyFloat}.

(** X22. A query that passed [validate] never asks for an inverted price
    range: when both bounds are present the lower one is not above the
    upper one, and the request carries exactly one range filter on price
    with both of them. *)
Theorem accepted_price_range_is_ordered (attrs : SearchQuery) (lo hi : Decimal) :
  validate attrs = Return attrs ->
  price_min attrs = Some lo -> price_max attrs = Some hi ->
  lo <= hi /\
  range_filters (build_search attrs)
  = [("price", Some (float lo), Some (float hi))].
Proof.
  intros Hv Hlo Hhi. rewrite build_search_range_filters, Hlo, Hhi.
  split; [|reflexivity]. unfold validate in Hv. rewrite Hlo, Hhi in Hv.
  case_bool_decide; [discriminate | lia].
Qed.

End price_range.

Section price_range_runs.
Import serializers documents views fixtures.

(** Prices from 10.00 to 100.00. *)
Lemma accepted_price_range_is_ordered_witness :
  validate price_window = Return price_window /\
  range_filters (build_search price_window)
  = [("price", Some 1000, Some 10000)].
Proof.
  split; [reflexivity|].
  exact (proj2 (accepted_price_range_is_ordered price_window 1000 10000
                  eq_refl eq_refl eq_refl)).
Defined.

(** An engine that is down: the search view raises. *)
Lemma search_without_engine_answer_witness :
  @get _ engine_down false page_two = Raise ConnectionError.
Proof.
  apply (search_without_engine_answer engine_down engine_down page_two
           ConnectionError).
  reflexivity.
Defined.

End price_range_runs.
